(** * aiosmtplib: connection handling ([aiosmtplib/connection.py])

    A shallow embedding of the [SMTPConnection] class: its attributes are
    a record, its methods are computations in a small state-and-exception
    monad, and everything the event loop, the [ssl] module and the
    protocol object decide is handed in as an explicit environment. *)

From Stdlib Require Import ZArith QArith String List Bool Lia.
From Stdlib Require Import DecimalString.
From stdpp Require Import base decidable option list strings.

Open Scope string_scope.
Open Scope list_scope.
Open Scope Z_scope.

(** ** Exception classes *)

(** Class objects are compared by identity, which the constructors give.
    The first block is Python's built-in hierarchy, the second the five
    names imported from [.errors], then [asyncio.TimeoutError], and
    [UserClass] stands for any other class the environment may raise. *)
Inductive PyClass : Type :=
  | BaseException
  | Exception
  | OSError
  | ConnectionError
  | BrokenPipeError
  | ConnectionAbortedError
  | ConnectionRefusedError
  | ConnectionResetError
  | FileNotFoundError
  | TimeoutError
  | AttributeError
  | AssertionError
  | ValueError
  | RuntimeError
  | NotImplementedError
  | SMTPConnectError
  | SMTPConnectTimeoutError
  | SMTPResponseException
  | SMTPServerDisconnected
  | SMTPTimeoutError
  | asyncio_TimeoutError
  | UserClass (qualname : string).

#[global] Instance PyClass_eq_dec : EqDecision PyClass.
Proof. solve_decision. Defined.

(** An exception instance: its class and [str(err)]. *)
Record PyExc : Type := mkExc { exc_type : PyClass; exc_str : string }.

#[global] Instance PyExc_eq_dec : EqDecision PyExc.
Proof. solve_decision. Defined.

(** Proper ancestors of the built-in classes, in method resolution order
    ([object] left out).  [None] for a class that is not a built-in. *)
Definition builtin_mro (c : PyClass) : option (list PyClass) :=
  match c with
  | BaseException => Some []
  | Exception => Some [BaseException]
  | OSError => Some [Exception; BaseException]
  | ConnectionError => Some [OSError; Exception; BaseException]
  | BrokenPipeError
  | ConnectionAbortedError
  | ConnectionRefusedError
  | ConnectionResetError =>
      Some [ConnectionError; OSError; Exception; BaseException]
  | FileNotFoundError => Some [OSError; Exception; BaseException]
  | TimeoutError => Some [OSError; Exception; BaseException]
  | AttributeError => Some [Exception; BaseException]
  | AssertionError => Some [Exception; BaseException]
  | ValueError => Some [Exception; BaseException]
  | RuntimeError => Some [Exception; BaseException]
  | NotImplementedError => Some [RuntimeError; Exception; BaseException]
  | _ => None
  end.

(** ** Values held by the connection *)

(** Timeouts are a number of seconds; they are stored and handed to
    [asyncio.wait_for], never computed with. *)
Definition seconds : Type := Q.

Definition Loop : Type := nat.

(** [ssl.SSLContext] objects live in a store and are referred to by
    address, so that handing back the caller's own context and building
    a fresh one are different things. *)
Definition SSLRef : Type := nat.

Inductive Purpose : Type := SERVER_AUTH | CLIENT_AUTH.
Inductive VerifyMode : Type := CERT_NONE | CERT_OPTIONAL | CERT_REQUIRED.

Record SSLContext : Type := mkSSLContext {
  purpose : Purpose;
  check_hostname : bool;
  verify_mode : VerifyMode;
  verify_locations : list string;
  cert_chain : list (string * option string)
}.

#[global] Instance Purpose_eq_dec : EqDecision Purpose.
Proof. solve_decision. Defined.
#[global] Instance VerifyMode_eq_dec : EqDecision VerifyMode.
Proof. solve_decision. Defined.
#[global] Instance SSLContext_eq_dec : EqDecision SSLContext.
Proof. solve_decision. Defined.

(** An [asyncio] transport, as far as this module looks at it. *)
Record Transport : Type := mkTransport {
  transport_id : nat;
  is_closing : bool
}.

Record SMTPProtocol : Type := mkProtocol { protocol_loop : Loop }.

(** [SMTPResponse] is the (code, message) pair of [response.py]. *)
Record SMTPResponse : Type := mkResponse { code : Z; message : string }.

(** Modelled from the spec: [status.py] is not part of the sources at
    hand; the spec names [SMTPStatus.ready] the "service ready" code, 220,
    and [SMTPStatus.domain_unavailable] the "domain/service unavailable"
    code, 421. *)
Module SMTPStatus.
Definition ready : Z := 220.
Definition domain_unavailable : Z := 421.
End SMTPStatus.

Definition SMTP_PORT : Z := 25.
Definition SMTP_TLS_PORT : Z := 465.
Definition SMTP_STARTTLS_PORT : Z := 587.
Definition DEFAULT_TIMEOUT : seconds := 60 # 1.

(** The [_default] sentinel of [default.py]: a keyword argument is either
    left at the sentinel or holds a Python value, [None] included. *)
Inductive Default (A : Type) : Type :=
  | _default
  | given (a : A).
Arguments _default {A}.
Arguments given {A} a.

(** ** The instance *)

Record SMTPConnection : Type := mkConn {
  protocol : option SMTPProtocol;
  transport : option Transport;
  hostname : option string;
  port : option Z;
  timeout : option seconds;
  use_tls : bool;
  _source_address : option string;
  validate_certs : bool;
  client_cert : option string;
  client_key : option string;
  tls_context : option SSLRef;
  cert_bundle : option string;
  loop : Loop;
  _connect_lock : bool   (* asyncio.Lock: the [locked()] flag *)
}.

(** What the module asks of the outside world, in call order. *)
Inductive Event : Type :=
  | EvLoadVerifyLocations (ctx : SSLRef) (cafile : string)
  | EvLoadCertChain (ctx : SSLRef) (certfile : string) (keyfile : option string)
  | EvCreateConnection (host : string) (port : Z) (ssl : option SSLRef)
                       (timeout : option seconds)
  | EvReadResponse (timeout : option seconds)
  | EvExecuteCommand (args : list (list Byte.byte)) (timeout : option seconds)
  | EvTransportClose (id : nat)
  | EvGetExtraInfo (id : nat) (key : string).

Record World : Type := mkWorld {
  self : SMTPConnection;
  contexts : list SSLContext;
  trace : list Event
}.

(** ** Computations *)

(** A coroutine either returns, raises, or stays suspended on a lock that
    nobody in this run releases. *)
Inductive Completion (A : Type) : Type :=
  | Returned (a : A)
  | Raised (e : PyExc)
  | Suspended.
Arguments Returned {A} a.
Arguments Raised {A} e.
Arguments Suspended {A}.

Definition M (A : Type) : Type := World -> Completion A * World.

Definition ret {A} (a : A) : M A := fun w => (Returned a, w).
Definition raise {A} (e : PyExc) : M A := fun w => (Raised e, w).
Definition suspend {A} : M A := fun w => (Suspended, w).

Definition bind {A B} (m : M A) (k : A -> M B) : M B :=
  fun w =>
    match m w with
    | (Returned a, w') => k a w'
    | (Raised e, w') => (Raised e, w')
    | (Suspended, w') => (Suspended, w')
    end.

(** [try: m  except Exception as err: handler err]; the handler re-raises
    what its clauses do not name. *)
Definition try_except {A} (m : M A) (handler : PyExc -> M A) : M A :=
  fun w =>
    match m w with
    | (Raised e, w') => handler e w'
    | r => r
    end.

Declare Scope py_scope.
Delimit Scope py_scope with py.
Notation "x <- m ;; k" := (bind m (fun x => k))
  (at level 100, m at next level, right associativity) : py_scope.
Notation "m ;; k" := (bind m (fun _ => k))
  (at level 100, right associativity) : py_scope.
Open Scope py_scope.

Definition when (b : bool) (m : M unit) : M unit := if b then m else ret tt.

Definition result {A} (m : M A) (w : World) : Completion A := fst (m w).
Definition after {A} (m : M A) (w : World) : World := snd (m w).

(** What an awaited call of the environment comes back with. *)
Inductive Outcome (A : Type) : Type :=
  | Returns (a : A)
  | Raises (e : PyExc).
Arguments Returns {A} a.
Arguments Raises {A} e.

Definition emit (ev : Event) : M unit :=
  fun w => (Returned tt, mkWorld (self w) (contexts w) (trace w ++ [ev])).

Definition getattr {A} (f : SMTPConnection -> A) : M A :=
  fun w => (Returned (f (self w)), w).

Definition modify (f : SMTPConnection -> SMTPConnection) : M unit :=
  fun w => (Returned tt, mkWorld (f (self w)) (contexts w) (trace w)).

Definition of_outcome {A} (o : Outcome A) : M A :=
  match o with
  | Returns a => ret a
  | Raises e => raise e
  end.

(** Attribute assignment, one setter per attribute. *)
Definition set_protocol v (s : SMTPConnection) : SMTPConnection :=
  mkConn v (transport s) (hostname s) (port s) (timeout s) (use_tls s)
    (_source_address s) (validate_certs s) (client_cert s) (client_key s)
    (tls_context s) (cert_bundle s) (loop s) (_connect_lock s).
Definition set_transport v (s : SMTPConnection) : SMTPConnection :=
  mkConn (protocol s) v (hostname s) (port s) (timeout s) (use_tls s)
    (_source_address s) (validate_certs s) (client_cert s) (client_key s)
    (tls_context s) (cert_bundle s) (loop s) (_connect_lock s).
Definition set_hostname v (s : SMTPConnection) : SMTPConnection :=
  mkConn (protocol s) (transport s) v (port s) (timeout s) (use_tls s)
    (_source_address s) (validate_certs s) (client_cert s) (client_key s)
    (tls_context s) (cert_bundle s) (loop s) (_connect_lock s).
Definition set_port v (s : SMTPConnection) : SMTPConnection :=
  mkConn (protocol s) (transport s) (hostname s) v (timeout s) (use_tls s)
    (_source_address s) (validate_certs s) (client_cert s) (client_key s)
    (tls_context s) (cert_bundle s) (loop s) (_connect_lock s).
Definition set_timeout v (s : SMTPConnection) : SMTPConnection :=
  mkConn (protocol s) (transport s) (hostname s) (port s) v (use_tls s)
    (_source_address s) (validate_certs s) (client_cert s) (client_key s)
    (tls_context s) (cert_bundle s) (loop s) (_connect_lock s).
Definition set_use_tls v (s : SMTPConnection) : SMTPConnection :=
  mkConn (protocol s) (transport s) (hostname s) (port s) (timeout s) v
    (_source_address s) (validate_certs s) (client_cert s) (client_key s)
    (tls_context s) (cert_bundle s) (loop s) (_connect_lock s).
Definition set_source_address v (s : SMTPConnection) : SMTPConnection :=
  mkConn (protocol s) (transport s) (hostname s) (port s) (timeout s)
    (use_tls s) v (validate_certs s) (client_cert s) (client_key s)
    (tls_context s) (cert_bundle s) (loop s) (_connect_lock s).
Definition set_validate_certs v (s : SMTPConnection) : SMTPConnection :=
  mkConn (protocol s) (transport s) (hostname s) (port s) (timeout s)
    (use_tls s) (_source_address s) v (client_cert s) (client_key s)
    (tls_context s) (cert_bundle s) (loop s) (_connect_lock s).
Definition set_client_cert v (s : SMTPConnection) : SMTPConnection :=
  mkConn (protocol s) (transport s) (hostname s) (port s) (timeout s)
    (use_tls s) (_source_address s) (validate_certs s) v (client_key s)
    (tls_context s) (cert_bundle s) (loop s) (_connect_lock s).
Definition set_client_key v (s : SMTPConnection) : SMTPConnection :=
  mkConn (protocol s) (transport s) (hostname s) (port s) (timeout s)
    (use_tls s) (_source_address s) (validate_certs s) (client_cert s) v
    (tls_context s) (cert_bundle s) (loop s) (_connect_lock s).
Definition set_tls_context v (s : SMTPConnection) : SMTPConnection :=
  mkConn (protocol s) (transport s) (hostname s) (port s) (timeout s)
    (use_tls s) (_source_address s) (validate_certs s) (client_cert s)
    (client_key s) v (cert_bundle s) (loop s) (_connect_lock s).
Definition set_cert_bundle v (s : SMTPConnection) : SMTPConnection :=
  mkConn (protocol s) (transport s) (hostname s) (port s) (timeout s)
    (use_tls s) (_source_address s) (validate_certs s) (client_cert s)
    (client_key s) (tls_context s) v (loop s) (_connect_lock s).
Definition set_loop v (s : SMTPConnection) : SMTPConnection :=
  mkConn (protocol s) (transport s) (hostname s) (port s) (timeout s)
    (use_tls s) (_source_address s) (validate_certs s) (client_cert s)
    (client_key s) (tls_context s) (cert_bundle s) v (_connect_lock s).
Definition set_connect_lock v (s : SMTPConnection) : SMTPConnection :=
  mkConn (protocol s) (transport s) (hostname s) (port s) (timeout s)
    (use_tls s) (_source_address s) (validate_certs s) (client_cert s)
    (client_key s) (tls_context s) (cert_bundle s) (loop s) v.

(** ** The environment of one call *)

(** Everything decided outside this module during one method call:
    whether the calling thread has an event loop, what [ssl] says about
    the files, how the awaited calls come back, and whether the peer drops
    the connection while the protocol is awaited. *)
Record Env : Type := mkEnv {
  get_event_loop : Outcome Loop;
  getfqdn : string;
  load_verify_locations_result : string -> option PyExc;
  load_cert_chain_result : string -> option string -> option PyExc;
  create_connection_result : Outcome Transport;
  read_response_result : Outcome SMTPResponse;
  execute_command_result : Outcome SMTPResponse;
  connection_lost : bool;
  get_extra_info : nat -> string -> option string
}.

(** ** asyncio.Lock *)

Definition Lock_locked : M bool := getattr _connect_lock.

(** [await lock.acquire()]: taken at once when free, otherwise the caller
    waits for a release. *)
Definition Lock_acquire : M unit :=
  held <- Lock_locked ;;
  if held then suspend else modify (set_connect_lock true).

Definition Lock_release : M unit :=
  held <- Lock_locked ;;
  if held then modify (set_connect_lock false)
  else raise (mkExc RuntimeError "Lock is not acquired.").

(** ** Transport and protocol calls *)

(** [transport.close()] on the transport the instance refers to.  The
    transport marks itself as closing and schedules its teardown on its
    event loop; scheduling raises when that loop has been closed
    ([RuntimeError: Event loop is closed]).  [error] is what the
    scheduling raises, if anything. *)
Definition Transport_close (error : option PyExc) (t : Transport) : M unit :=
  emit (EvTransportClose (transport_id t)) ;;
  modify (set_transport (Some (mkTransport (transport_id t) true))) ;;
  match error with
  | Some e => raise e
  | None => ret tt
  end.

Definition lose_connection (s : SMTPConnection) : SMTPConnection :=
  match transport s with
  | Some t => set_transport (Some (mkTransport (transport_id t) true)) s
  | None => s
  end.

(** An awaited call on the protocol: the request goes out, the peer may
    hang up meanwhile, and the call returns or raises. *)
Definition await_protocol {A} (env : Env) (ev : Event) (o : Outcome A) : M A :=
  emit ev ;;
  when (connection_lost env) (modify lose_connection) ;;
  of_outcome o.

(** ** ssl *)

Definition ssl_create_default_context (p : Purpose) : M SSLRef :=
  fun w =>
    (Returned (length (contexts w)),
     mkWorld (self w)
             (contexts w ++ [mkSSLContext p true CERT_REQUIRED [] []])
             (trace w)).

Definition update_context (r : SSLRef) (f : SSLContext -> SSLContext) : M unit :=
  fun w => (Returned tt, mkWorld (self w) (alter f r (contexts w)) (trace w)).

Definition get_context (r : SSLRef) : M (option SSLContext) :=
  fun w => (Returned (contexts w !! r), w).

Definition SSLContext_set_check_hostname (r : SSLRef) (b : bool) : M unit :=
  update_context r (fun c =>
    mkSSLContext (purpose c) b (verify_mode c) (verify_locations c) (cert_chain c)).

(** The [verify_mode] setter refuses [CERT_NONE] while [check_hostname]
    is on. *)
Definition SSLContext_set_verify_mode (r : SSLRef) (m : VerifyMode) : M unit :=
  c <- get_context r ;;
  match c, m with
  | Some (mkSSLContext _ true _ _ _), CERT_NONE =>
      raise (mkExc ValueError
        "Cannot set verify_mode to CERT_NONE when check_hostname is enabled.")
  | _, _ =>
      update_context r (fun c =>
        mkSSLContext (purpose c) (check_hostname c) m (verify_locations c)
                     (cert_chain c))
  end.

Definition SSLContext_load_verify_locations (env : Env) (r : SSLRef)
    (cafile : string) : M unit :=
  emit (EvLoadVerifyLocations r cafile) ;;
  match load_verify_locations_result env cafile with
  | Some e => raise e
  | None =>
      update_context r (fun c =>
        mkSSLContext (purpose c) (check_hostname c) (verify_mode c)
                     (verify_locations c ++ [cafile]) (cert_chain c))
  end.

Definition SSLContext_load_cert_chain (env : Env) (r : SSLRef)
    (certfile : string) (keyfile : option string) : M unit :=
  emit (EvLoadCertChain r certfile keyfile) ;;
  match load_cert_chain_result env certfile keyfile with
  | Some e => raise e
  | None =>
      update_context r (fun c =>
        mkSSLContext (purpose c) (check_hostname c) (verify_mode c)
                     (verify_locations c) (cert_chain c ++ [(certfile, keyfile)]))
  end.

(** ** Python idioms *)

Definition if_not_None {A} (x : option A) (body : A -> M unit) : M unit :=
  match x with
  | Some a => body a
  | None => ret tt
  end.

Definition if_not_default {A} (x : Default A) (body : A -> M unit) : M unit :=
  match x with
  | given a => body a
  | _default => ret tt
  end.

(** [str.format] of an attribute that holds a string, a number or [None]. *)
Definition format_str (x : option string) : string :=
  match x with
  | Some s => s
  | None => "None"
  end.

Definition format_int (x : option Z) : string :=
  match x with
  | Some z => NilZero.string_of_int (Z.to_int z)
  | None => "None"
  end.

Definition bytes : Type := list Byte.byte.

(** ** The class *)

Section SMTPConnection.

(** Two things this module imports are defined in files that are not at
    hand and are taken as given: the proper ancestors of every class that
    is not a built-in (the classes of [errors.py], and what [asyncio] and
    others define), and [SMTPResponse.__str__] of [response.py]. *)
Variable foreign_mro : PyClass -> list PyClass.
Variable response_str : SMTPResponse -> string.

Definition mro (c : PyClass) : list PyClass :=
  c :: match builtin_mro c with
       | Some ancestors => ancestors
       | None => foreign_mro c
       end.

Definition issubclass (c d : PyClass) : bool :=
  existsb (fun a => bool_decide (a = d)) (mro c).

(** [except (C1, ..., Cn)] looking at a raised exception. *)
Definition isinstance (e : PyExc) (classes : list PyClass) : bool :=
  existsb (issubclass (exc_type e)) classes.

(** [exc_type in (C1, ..., Cn)]: membership by equality of class objects;
    [None] is what the scope guard gets when nothing was raised. *)
Definition class_in (c : option PyClass) (classes : list PyClass) : bool :=
  match c with
  | Some c => existsb (fun d => bool_decide (c = d)) classes
  | None => false
  end.

Definition __init__ (env : Env)
    (hostname_ : string) (port_ : option Z) (source_address_ : option string)
    (timeout_ : option seconds) (loop_ : option Loop)
    (use_tls_ validate_certs_ : bool)
    (client_cert_ client_key_ : option string)
    (tls_context_ : option SSLRef) (cert_bundle_ : option string)
    : Outcome SMTPConnection :=
  match tls_context_, client_cert_ with
  | Some _, Some _ =>
      Raises (mkExc ValueError
        "Either a TLS context or a certificate/key must be provided")
  | _, _ =>
      match (match loop_ with
             | Some l => Returns l
             | None => get_event_loop env
             end) with
      | Raises e => Raises e
      | Returns l =>
          Returns {| protocol := None;
                     transport := None;
                     hostname := Some hostname_;
                     port := port_;
                     timeout := timeout_;
                     use_tls := use_tls_;
                     _source_address := source_address_;
                     validate_certs := validate_certs_;
                     client_cert := client_cert_;
                     client_key := client_key_;
                     tls_context := tls_context_;
                     cert_bundle := cert_bundle_;
                     loop := l;
                     _connect_lock := false |}
      end
  end.

Definition is_connected : M bool :=
  t <- getattr transport ;;
  ret match t with
      | Some t => negb (is_closing t)
      | None => false
      end.

Definition source_address (env : Env) : M string :=
  a <- getattr _source_address ;;
  match a with
  | Some a => ret a
  | None =>
      modify (set_source_address (Some (getfqdn env))) ;;
      ret (getfqdn env)
  end.

(** [close], given what [transport.close()] raises, if anything. *)
Definition close_on (error : option PyExc) : M unit :=
  t <- getattr transport ;;
  match t with
  | Some t => when (negb (is_closing t)) (Transport_close error t)
  | None => ret tt
  end ;;
  held <- Lock_locked ;;
  when held Lock_release ;;
  modify (set_protocol None) ;;
  modify (set_transport None).

(** [close] with a transport that takes the request, as it does while
    its event loop is open: this is the call the coroutines of the class
    make, which run on that loop. *)
Definition close : M unit := close_on None.

Definition _raise_error_if_disconnected : M unit :=
  t <- getattr transport ;;
  p <- getattr protocol ;;
  let disconnected :=
    match t, p with
    | None, _ => true
    | Some _, None => true
    | Some t, Some _ => is_closing t
    end in
  if disconnected then
    close ;;
    raise (mkExc SMTPServerDisconnected "Disconnected from SMTP server")
  else ret tt.

Definition _get_tls_context (env : Env) : M SSLRef :=
  supplied <- getattr tls_context ;;
  match supplied with
  | Some context => ret context
  | None =>
      context <- ssl_create_default_context SERVER_AUTH ;;
      validate <- getattr validate_certs ;;
      SSLContext_set_check_hostname context validate ;;
      (if validate
       then SSLContext_set_verify_mode context CERT_REQUIRED
       else SSLContext_set_verify_mode context CERT_NONE) ;;
      bundle <- getattr cert_bundle ;;
      if_not_None bundle (fun cafile =>
        SSLContext_load_verify_locations env context cafile) ;;
      cert <- getattr client_cert ;;
      if_not_None cert (fun certfile =>
        keyfile <- getattr client_key ;;
        SSLContext_load_cert_chain env context certfile keyfile) ;;
      ret context
  end.

Definition _create_connection (env : Env) : M SMTPResponse :=
  host <- getattr hostname ;;
  match host with
  | None => raise (mkExc ValueError "Hostname must be set.")
  | Some host =>
  port_ <- getattr port ;;
  match port_ with
  | None => raise (mkExc ValueError "Port must be set.")
  | Some port_ =>
  loop_ <- getattr loop ;;
  let protocol_ := mkProtocol loop_ in
  tls <- getattr use_tls ;;
  tls_context_ <- (if tls
                   then context <- _get_tls_context env ;; ret (Some context)
                   else ret None) ;;
  timeout_ <- getattr timeout ;;
  transport_ <-
    try_except
      (emit (EvCreateConnection host port_ tls_context_ timeout_) ;;
       of_outcome (create_connection_result env))
      (fun err =>
         if isinstance err [ConnectionRefusedError; OSError] then
           close ;;
           h <- getattr hostname ;;
           p <- getattr port ;;
           raise (mkExc SMTPConnectError
                    ("Error connecting to " +:+ format_str h +:+ " on port "
                     +:+ format_int p +:+ ": " +:+ exc_str err))
         else if isinstance err [asyncio_TimeoutError] then
           close ;;
           h <- getattr hostname ;;
           p <- getattr port ;;
           raise (mkExc SMTPConnectTimeoutError
                    ("Timed out connecting to " +:+ format_str h
                     +:+ " on port " +:+ format_int p))
         else raise err) ;;
  modify (set_protocol (Some protocol_)) ;;
  modify (set_transport (Some transport_)) ;;
  timeout_ <- getattr timeout ;;
  response <-
    try_except
      (await_protocol env (EvReadResponse timeout_) (read_response_result env))
      (fun err =>
         if isinstance err [asyncio_TimeoutError] then
           close ;;
           raise (mkExc SMTPConnectTimeoutError
                    "Timed out waiting for server ready message")
         else raise err) ;;
  if negb (code response =? SMTPStatus.ready) then
    close ;;
    raise (mkExc SMTPConnectError (response_str response))
  else ret response
  end
  end.

(** The keyword arguments of [connect], after Python has filled in the
    defaults of those the caller left out. *)
Record ConnectArgs : Type := mkConnectArgs {
  arg_hostname : option string;
  arg_port : option Z;
  arg_source_address : Default (option string);
  arg_timeout : Default (option seconds);
  arg_loop : option Loop;
  arg_use_tls : option bool;
  arg_validate_certs : option bool;
  arg_client_cert : Default (option string);
  arg_client_key : Default (option string);
  arg_tls_context : Default (option SSLRef);
  arg_cert_bundle : Default (option string)
}.

(** A call that passes no keyword at all. *)
Definition no_arguments : ConnectArgs :=
  mkConnectArgs None None _default _default None None None
                _default _default _default _default.

Definition connect (env : Env) (a : ConnectArgs) : M SMTPResponse :=
  Lock_acquire ;;
  if_not_None (arg_hostname a) (fun v => modify (set_hostname (Some v))) ;;
  if_not_None (arg_loop a) (fun v => modify (set_loop v)) ;;
  if_not_None (arg_use_tls a) (fun v => modify (set_use_tls v)) ;;
  if_not_None (arg_validate_certs a) (fun v => modify (set_validate_certs v)) ;;
  if_not_None (arg_port a) (fun v => modify (set_port (Some v))) ;;
  p <- getattr port ;;
  match p with
  | None =>
      tls <- getattr use_tls ;;
      modify (set_port (Some (if tls then SMTP_TLS_PORT else SMTP_PORT)))
  | Some _ => ret tt
  end ;;
  if_not_default (arg_timeout a) (fun v => modify (set_timeout v)) ;;
  if_not_default (arg_source_address a) (fun v => modify (set_source_address v)) ;;
  if_not_default (arg_client_cert a) (fun v => modify (set_client_cert v)) ;;
  if_not_default (arg_client_key a) (fun v => modify (set_client_key v)) ;;
  if_not_default (arg_tls_context a) (fun v => modify (set_tls_context v)) ;;
  if_not_default (arg_cert_bundle a) (fun v => modify (set_cert_bundle v)) ;;
  tc <- getattr tls_context ;;
  cc <- getattr client_cert ;;
  match tc, cc with
  | Some _, Some _ =>
      raise (mkExc ValueError
               "Either a TLS context or a certificate/key must be provided")
  | _, _ =>
      response <- _create_connection env ;;
      ret response
  end.

Definition execute_command (env : Env) (args : list bytes)
    (timeout_ : Default (option seconds)) : M SMTPResponse :=
  timeout_ <- match timeout_ with
              | _default => getattr timeout
              | given t => ret t
              end ;;
  _raise_error_if_disconnected ;;
  response <-
    try_except
      (p <- getattr protocol ;;
       match p with
       | Some _ =>
           await_protocol env (EvExecuteCommand args timeout_)
                          (execute_command_result env)
       | None =>
           raise (mkExc AttributeError
                    "'NoneType' object has no attribute 'execute_command'")
       end)
      (fun err =>
         if isinstance err [SMTPServerDisconnected] then
           close ;;
           raise err
         else raise err) ;;
  when (code response =? SMTPStatus.domain_unavailable) close ;;
  ret response.

(** [quit] is left to the subclass; here it only raises. *)
Definition quit (timeout_ : Default (option seconds)) : M SMTPResponse :=
  raise (mkExc NotImplementedError EmptyString).

Definition __aenter__ (env : Env) : M unit :=
  connected <- is_connected ;;
  when (negb connected) (connect env no_arguments ;; ret tt).

(** [self.quit] is looked up on the instance, so the scope guard takes
    the [quit] of whatever subclass it runs in. *)
Definition __aexit__ (self_quit : M SMTPResponse) (exc_type_ : option PyClass)
    : M unit :=
  let is_connection_error := class_in exc_type_ [ConnectionError; SMTPTimeoutError] in
  connected <- is_connected ;;
  if is_connection_error || negb connected then close
  else
    try_except
      (self_quit ;; ret tt)
      (fun err =>
         if isinstance err [ConnectionError; SMTPResponseException; SMTPTimeoutError]
         then close
         else raise err).


(** A call site of [connect]: each keyword is either left out ([None]) or
    passed with a Python value.  Binding fills in the defaults of the
    signature: [None] for [hostname], [port], [loop], [use_tls] and
    [validate_certs], the [_default] sentinel for the others. *)
Record ConnectCall : Type := mkConnectCall {
  kw_hostname : option (option string);
  kw_port : option (option Z);
  kw_source_address : option (option string);
  kw_timeout : option (option seconds);
  kw_loop : option (option Loop);
  kw_use_tls : option (option bool);
  kw_validate_certs : option (option bool);
  kw_client_cert : option (option string);
  kw_client_key : option (option string);
  kw_tls_context : option (option SSLRef);
  kw_cert_bundle : option (option string)
}.

Definition default_None {A} (kw : option (option A)) : option A :=
  match kw with
  | Some v => v
  | None => None
  end.

Definition default_sentinel {A} (kw : option A) : Default A :=
  match kw with
  | Some v => given v
  | None => _default
  end.

Definition bind_arguments (c : ConnectCall) : ConnectArgs :=
  {| arg_hostname := default_None (kw_hostname c);
     arg_port := default_None (kw_port c);
     arg_source_address := default_sentinel (kw_source_address c);
     arg_timeout := default_sentinel (kw_timeout c);
     arg_loop := default_None (kw_loop c);
     arg_use_tls := default_None (kw_use_tls c);
     arg_validate_certs := default_None (kw_validate_certs c);
     arg_client_cert := default_sentinel (kw_client_cert c);
     arg_client_key := default_sentinel (kw_client_key c);
     arg_tls_context := default_sentinel (kw_tls_context c);
     arg_cert_bundle := default_sentinel (kw_cert_bundle c) |}.

(** ** Vocabulary of the statements *)

(** [n] calls of [close] in a row, the transport answering its own
    [close()] the same way each time. *)
Fixpoint close_times (error : option PyExc) (n : nat) : M unit :=
  match n with
  | O => ret tt
  | S n => close_on error ;; close_times error n
  end.

(** The liveness test of [_raise_error_if_disconnected], as a reading of
    the instance. *)
Definition live (s : SMTPConnection) : bool :=
  match transport s, protocol s with
  | Some t, Some _ => negb (is_closing t)
  | _, _ => false
  end.

(** The request [close] sends to the transport, if any. *)
Definition close_request (s : SMTPConnection) : list Event :=
  match transport s with
  | Some t => if is_closing t then [] else [EvTransportClose (transport_id t)]
  | None => []
  end.

(** The stored Connection Configuration: every attribute but the
    transport, the protocol and the lock. *)
Record Configuration : Type := mkConfiguration {
  cfg_hostname : option string;
  cfg_port : option Z;
  cfg_timeout : option seconds;
  cfg_use_tls : bool;
  cfg_source_address : option string;
  cfg_validate_certs : bool;
  cfg_client_cert : option string;
  cfg_client_key : option string;
  cfg_tls_context : option SSLRef;
  cfg_cert_bundle : option string;
  cfg_loop : Loop
}.

Definition configuration (s : SMTPConnection) : Configuration :=
  mkConfiguration (hostname s) (port s) (timeout s) (use_tls s)
                  (_source_address s) (validate_certs s) (client_cert s)
                  (client_key s) (tls_context s) (cert_bundle s) (loop s).

(** A computation keeps a relation between the worlds before and after,
    however it ends. *)
Definition keeps {A} (R : World -> World -> Prop) (m : M A) : Prop :=
  forall w, R w (after m w).

Definition same_configuration (w w' : World) : Prop :=
  configuration (self w') = configuration (self w).

Definition same_self (w w' : World) : Prop := self w' = self w.

(** No SSL context that exists before is touched. *)
Definition contexts_untouched (w w' : World) : Prop :=
  forall (r : SSLRef) (c : SSLContext),
    contexts w !! r = Some c -> contexts w' !! r = Some c.

(** The error of [_raise_error_if_disconnected]. *)
Definition not_connected : PyExc :=
  mkExc SMTPServerDisconnected "Disconnected from SMTP server".

(** The instance as [close] leaves it. *)
Definition closed (s : SMTPConnection) : SMTPConnection :=
  set_transport None (set_protocol None (set_connect_lock false s)).

(** An assignment guarded by [is not None], or by [is not _default], as
    a function of the instance. *)
Definition assign_if_not_None {A} (x : option A)
    (set : A -> SMTPConnection -> SMTPConnection) (s : SMTPConnection)
    : SMTPConnection :=
  match x with
  | Some v => set v s
  | None => s
  end.

Definition assign_if_not_default {A} (x : Default A)
    (set : A -> SMTPConnection -> SMTPConnection) (s : SMTPConnection)
    : SMTPConnection :=
  match x with
  | given v => set v s
  | _default => s
  end.

Definition resolve_port (s : SMTPConnection) : SMTPConnection :=
  match port s with
  | None => set_port (Some (if use_tls s then SMTP_TLS_PORT else SMTP_PORT)) s
  | Some _ => s
  end.

(** The assignments at the head of [connect], last one outermost. *)
Definition overrides (a : ConnectArgs) (s : SMTPConnection) : SMTPConnection :=
  assign_if_not_default (arg_cert_bundle a) set_cert_bundle
    (assign_if_not_default (arg_tls_context a) set_tls_context
      (assign_if_not_default (arg_client_key a) set_client_key
        (assign_if_not_default (arg_client_cert a) set_client_cert
          (assign_if_not_default (arg_source_address a) set_source_address
            (assign_if_not_default (arg_timeout a) set_timeout
              (resolve_port
                (assign_if_not_None (arg_port a) (fun v => set_port (Some v))
                  (assign_if_not_None (arg_validate_certs a) set_validate_certs
                    (assign_if_not_None (arg_use_tls a) set_use_tls
                      (assign_if_not_None (arg_loop a) set_loop
                        (assign_if_not_None (arg_hostname a)
                           (fun v => set_hostname (Some v)) s))))))))))).

(** What [connect] does once the overrides are stored. *)
Definition connect_tail (env : Env) : M SMTPResponse :=
  tc <- getattr tls_context ;;
  cc <- getattr client_cert ;;
  match tc, cc with
  | Some _, Some _ =>
      raise (mkExc ValueError
               "Either a TLS context or a certificate/key must be provided")
  | _, _ =>
      response <- _create_connection env ;;
      ret response
  end.

(** The stages of [_create_connection] past its two checks: building
    the TLS context if asked for, then opening the transport and waiting
    for the greeting. *)
Definition tls_stage (env : Env) : M (option SSLRef) :=
  tls <- getattr use_tls ;;
  if tls
  then context <- _get_tls_context env ;; ret (Some context)
  else ret None.

Definition open_stage (env : Env) (host : string) (port_ : Z)
    (tls_context_ : option SSLRef) : M Transport :=
  timeout_ <- getattr timeout ;;
  try_except
    (emit (EvCreateConnection host port_ tls_context_ timeout_) ;;
     of_outcome (create_connection_result env))
    (fun err =>
       if isinstance err [ConnectionRefusedError; OSError] then
         close ;;
         h <- getattr hostname ;;
         p <- getattr port ;;
         raise (mkExc SMTPConnectError
                  ("Error connecting to " +:+ format_str h +:+ " on port "
                   +:+ format_int p +:+ ": " +:+ exc_str err))
       else if isinstance err [asyncio_TimeoutError] then
         close ;;
         h <- getattr hostname ;;
         p <- getattr port ;;
         raise (mkExc SMTPConnectTimeoutError
                  ("Timed out connecting to " +:+ format_str h
                   +:+ " on port " +:+ format_int p))
       else raise err).

Definition greeting_stage (env : Env) : M SMTPResponse :=
  timeout_ <- getattr timeout ;;
  response <-
    try_except
      (await_protocol env (EvReadResponse timeout_) (read_response_result env))
      (fun err =>
         if isinstance err [asyncio_TimeoutError] then
           close ;;
           raise (mkExc SMTPConnectTimeoutError
                    "Timed out waiting for server ready message")
         else raise err) ;;
  if negb (code response =? SMTPStatus.ready) then
    close ;;
    raise (mkExc SMTPConnectError (response_str response))
  else ret response.

Definition greeting_timeout : PyExc :=
  mkExc SMTPConnectTimeoutError "Timed out waiting for server ready message".

(** The error for a TLS context given together with a client
    certificate. *)
Definition exclusive_options : PyExc :=
  mkExc ValueError "Either a TLS context or a certificate/key must be provided".

(** Events that open a network connection. *)
Definition is_attempt (ev : Event) : bool :=
  match ev with
  | EvCreateConnection _ _ _ _ => true
  | _ => false
  end.

(** The trace only grows, and by no connection attempt. *)
Definition extends_quietly (w w' : World) : Prop :=
  exists evs, trace w' = trace w ++ evs
              /\ Forall (fun ev => is_attempt ev = false) evs.


(** A keyword of a call is respected when the attribute afterwards holds
    the value passed, or, the keyword left out, the value it held. *)
Definition keyword_respected {A} (kw : option A) (before after : A) : Prop :=
  match kw with
  | Some v => after = v
  | None => after = before
  end.

(** The context [_get_tls_context] builds when none was supplied. *)
Definition built_context (s : SMTPConnection) : SSLContext :=
  {| purpose := SERVER_AUTH;
     check_hostname := validate_certs s;
     verify_mode := if validate_certs s then CERT_REQUIRED else CERT_NONE;
     verify_locations := match cert_bundle s with
                         | Some cafile => [cafile]
                         | None => []
                         end;
     cert_chain := match client_cert s with
                   | Some certfile => [(certfile, client_key s)]
                   | None => []
                   end |}.

(** ** Sample data *)

(** One hierarchy the classes of [errors.py] may have: every SMTP error
    derives from a common base, the disconnection and connect errors
    also from [ConnectionError], the timeout errors from [TimeoutError];
    [asyncio.TimeoutError] and unknown classes derive from [Exception]. *)
Definition sample_mro (c : PyClass) : list PyClass :=
  let base := UserClass "aiosmtplib.errors.SMTPException" in
  match c with
  | SMTPServerDisconnected | SMTPConnectError =>
      [base; ConnectionError; OSError; Exception; BaseException]
  | SMTPTimeoutError => [base; TimeoutError; OSError; Exception; BaseException]
  | SMTPConnectTimeoutError =>
      [SMTPTimeoutError; SMTPConnectError; base; TimeoutError; ConnectionError;
       OSError; Exception; BaseException]
  | SMTPResponseException => [base; Exception; BaseException]
  | _ => [Exception; BaseException]
  end.

Definition sample_str (r : SMTPResponse) : string :=
  NilZero.string_of_int (Z.to_int (code r)) +:+ " " +:+ message r.

(** A server that accepts the connection and greets with 220, and
    answers a command with 421. *)
Definition sample_env : Env :=
  {| get_event_loop := Returns 0%nat;
     getfqdn := "client.example.org";
     load_verify_locations_result := fun _ => None;
     load_cert_chain_result := fun _ _ => None;
     create_connection_result := Returns (mkTransport 1 false);
     read_response_result := Returns (mkResponse 220 "ready");
     execute_command_result := Returns (mkResponse 421 "shutting down");
     connection_lost := false;
     get_extra_info := fun _ _ => None |}.

(** A server that accepts the connection and then stays silent. *)
Definition silent_env : Env :=
  {| get_event_loop := Returns 0%nat;
     getfqdn := "client.example.org";
     load_verify_locations_result := fun _ => None;
     load_cert_chain_result := fun _ _ => None;
     create_connection_result := Returns (mkTransport 1 false);
     read_response_result := Raises (mkExc asyncio_TimeoutError EmptyString);
     execute_command_result := Raises (mkExc asyncio_TimeoutError EmptyString);
     connection_lost := false;
     get_extra_info := fun _ _ => None |}.

(** A fresh instance with the defaults of the constructor, port 2500. *)
Definition sample_instance : SMTPConnection :=
  {| protocol := None;
     transport := None;
     hostname := Some "localhost";
     port := Some 2500;
     timeout := Some DEFAULT_TIMEOUT;
     use_tls := false;
     _source_address := None;
     validate_certs := true;
     client_cert := None;
     client_key := None;
     tls_context := None;
     cert_bundle := None;
     loop := 0%nat;
     _connect_lock := false |}.

(** The same instance after a successful [connect]: transport and
    protocol stored, lock held. *)
Definition connected_instance : SMTPConnection :=
  set_connect_lock true
    (set_transport (Some (mkTransport 1 false))
       (set_protocol (Some (mkProtocol 0%nat)) sample_instance)).

(** ... and after the peer has hung up. *)
Definition hung_up_instance : SMTPConnection :=
  set_transport (Some (mkTransport 1 true)) connected_instance.


(** An instance set up for TLS with a bundle and a client certificate. *)
Definition tls_instance : SMTPConnection :=
  set_client_key (Some "client.key")
    (set_client_cert (Some "client.pem")
       (set_cert_bundle (Some "ca.pem")
          (set_validate_certs false (set_use_tls true sample_instance)))).

(** A host where nothing listens. *)
Definition refusing_env : Env :=
  {| get_event_loop := Returns 0%nat;
     getfqdn := "client.example.org";
     load_verify_locations_result := fun _ => None;
     load_cert_chain_result := fun _ _ => None;
     create_connection_result :=
       Raises (mkExc ConnectionRefusedError "[Errno 111] Connection refused");
     read_response_result := Returns (mkResponse 220 "ready");
     execute_command_result := Returns (mkResponse 250 "OK");
     connection_lost := false;
     get_extra_info := fun _ _ => None |}.

(** An event loop that is shut down: opening raises something that is
    neither an [OSError] nor a timeout. *)
Definition broken_env : Env :=
  {| get_event_loop := Returns 0%nat;
     getfqdn := "client.example.org";
     load_verify_locations_result := fun _ => None;
     load_cert_chain_result := fun _ _ => None;
     create_connection_result :=
       Raises (mkExc RuntimeError "Event loop is closed");
     read_response_result := Returns (mkResponse 220 "ready");
     execute_command_result := Returns (mkResponse 250 "OK");
     connection_lost := false;
     get_extra_info := fun _ _ => None |}.

(** A server that hangs up in the middle of a command. *)
Definition dropping_env : Env :=
  {| get_event_loop := Returns 0%nat;
     getfqdn := "client.example.org";
     load_verify_locations_result := fun _ => None;
     load_cert_chain_result := fun _ _ => None;
     create_connection_result := Returns (mkTransport 1 false);
     read_response_result := Returns (mkResponse 220 "ready");
     execute_command_result :=
       Raises (mkExc SMTPServerDisconnected "Connection lost");
     connection_lost := true;
     get_extra_info := fun _ _ => None |}.

(** A machine on which the certificate bundle is missing. *)
Definition missing_bundle_env : Env :=
  {| get_event_loop := Returns 0%nat;
     getfqdn := "client.example.org";
     load_verify_locations_result :=
       fun _ => Some (mkExc FileNotFoundError
                        "[Errno 2] No such file or directory");
     load_cert_chain_result := fun _ _ => None;
     create_connection_result := Returns (mkTransport 1 false);
     read_response_result := Returns (mkResponse 220 "ready");
     execute_command_result := Returns (mkResponse 250 "OK");
     connection_lost := false;
     get_extra_info := fun _ _ => None |}.

(** A second server, like the first, handing out another transport. *)
Definition second_env : Env :=
  {| get_event_loop := Returns 0%nat;
     getfqdn := "client.example.org";
     load_verify_locations_result := fun _ => None;
     load_cert_chain_result := fun _ _ => None;
     create_connection_result := Returns (mkTransport 2 false);
     read_response_result := Returns (mkResponse 220 "ready again");
     execute_command_result := Returns (mkResponse 250 "OK");
     connection_lost := false;
     get_extra_info := fun _ _ => Some "('127.0.0.1', 2500)" |}.

(** A [quit] of a subclass that finds the server gone, and one that is
    answered. *)
Definition quit_on_dead_server : M SMTPResponse :=
  raise (mkExc SMTPServerDisconnected "Connection lost").

Definition quit_answered : M SMTPResponse :=
  ret (mkResponse 221 "bye").

(** ** Running computations *)

(** Symbolic execution: unfold the monad and the attribute accesses and
    compute as far as the known values go. *)
Ltac run :=
  cbv beta iota zeta delta
    [bind try_except ret raise suspend getattr modify emit of_outcome when
     await_protocol if_not_None if_not_default after result fst snd
     self contexts trace
     protocol transport hostname port timeout use_tls _source_address
     validate_certs client_cert client_key tls_context cert_bundle loop
     _connect_lock transport_id is_closing
     set_protocol set_transport set_hostname set_port set_timeout set_use_tls
     set_source_address set_validate_certs set_client_cert set_client_key
     set_tls_context set_cert_bundle set_loop set_connect_lock
     lose_connection Lock_locked Lock_acquire Lock_release Transport_close
     is_connected _raise_error_if_disconnected close close_on negb orb andb
     configuration closed close_request].

Lemma bind_returned {A B} (m : M A) (k : A -> M B) w a w' :
  m w = (Returned a, w') -> bind m k w = k a w'.
Proof. intros H. unfold bind. now rewrite H. Qed.




(** ** Frame rules *)

Section Frame.
Context (R : World -> World -> Prop) `{!Reflexive R} `{!Transitive R}.

Lemma keeps_ret {A} (a : A) : keeps R (ret a).
Proof. intros w. apply reflexivity. Qed.

Lemma keeps_raise {A} e : keeps R (@raise A e).
Proof. intros w. apply reflexivity. Qed.

Lemma keeps_suspend {A} : keeps R (@suspend A).
Proof. intros w. apply reflexivity. Qed.

Lemma keeps_getattr {A} (f : SMTPConnection -> A) : keeps R (getattr f).
Proof. intros w. apply reflexivity. Qed.

Lemma keeps_of_outcome {A} (o : Outcome A) : keeps R (of_outcome o).
Proof. destruct o; intros w; apply reflexivity. Qed.

Lemma keeps_bind {A B} (m : M A) (k : A -> M B) :
  keeps R m -> (forall a, keeps R (k a)) -> keeps R (bind m k).
Proof.
  intros Hm Hk w. unfold after, bind. specialize (Hm w). unfold after in Hm.
  destruct (m w) as [[a| e |] w1]; simpl in *; auto.
  etransitivity; [exact Hm | apply Hk].
Qed.

Lemma keeps_try_except {A} (m : M A) h :
  keeps R m -> (forall e, keeps R (h e)) -> keeps R (try_except m h).
Proof.
  intros Hm Hh w. unfold after, try_except. specialize (Hm w). unfold after in Hm.
  destruct (m w) as [[a| e |] w1]; simpl in *; auto.
  etransitivity; [exact Hm | apply Hh].
Qed.

Lemma keeps_when b m : keeps R m -> keeps R (when b m).
Proof. destruct b; simpl; auto using @keeps_ret. Qed.


Lemma keeps_if_not_None {A} (x : option A) body :
  (forall a, keeps R (body a)) -> keeps R (if_not_None x body).
Proof. destruct x; simpl; auto using @keeps_ret. Qed.

Lemma keeps_if_not_default {A} (x : Default A) body :
  (forall a, keeps R (body a)) -> keeps R (if_not_default x body).
Proof. destruct x; simpl; auto using @keeps_ret. Qed.

End Frame.

#[local] Instance same_configuration_refl : Reflexive same_configuration.
Proof. now intros w. Qed.

#[local] Instance same_configuration_trans : Transitive same_configuration.
Proof. unfold same_configuration. intros w1 w2 w3 H12 H23. congruence. Qed.

#[local] Instance same_self_refl : Reflexive same_self.
Proof. now intros w. Qed.

#[local] Instance same_self_trans : Transitive same_self.
Proof. unfold same_self. intros w1 w2 w3 H12 H23. congruence. Qed.

(** ** close *)

Lemma close_on_run (error : option PyExc) (w : World) :
  close_on error w =
  match error, close_request (self w) with
  | Some e, _ :: _ =>
      (Raised e,
       mkWorld (lose_connection (self w)) (contexts w)
               (trace w ++ close_request (self w)))
  | _, _ =>
      (Returned tt,
       mkWorld (closed (self w)) (contexts w) (trace w ++ close_request (self w)))
  end.
Proof.
  destruct w as [s ctxs tr]. destruct s as [p t h po ti u sa v cc ck tc cb l lk].
  unfold close_request, closed, lose_connection; simpl.
  destruct error as [e|], t as [[id [|]]|], lk; cbn; rewrite ?app_nil_r;
    reflexivity.
Qed.

Lemma close_run (w : World) :
  close w =
  (Returned tt,
   mkWorld (closed (self w)) (contexts w) (trace w ++ close_request (self w))).
Proof. unfold close. rewrite close_on_run. reflexivity. Qed.

Lemma close_keeps_configuration : keeps same_configuration close.
Proof. intros w. unfold after. rewrite close_run. reflexivity. Qed.

Lemma close_on_accepted (error : option PyExc) (w : World) :
  error = None \/ close_request (self w) = [] ->
  close_on error w = close w.
Proof.
  intros H. rewrite close_run, close_on_run.
  destruct H as [-> | ->]; [reflexivity | now destruct error].
Qed.

Lemma close_times_run (error : option PyExc) (n : nat) (w : World) :
  error = None \/ close_request (self w) = [] ->
  close_times error (S n) w = close w.
Proof.
  revert w. induction n as [|n IH]; intros w H.
  - simpl. unfold bind. rewrite (close_on_accepted _ _ H), close_run. reflexivity.
  - change (close_times error (S (S n)))
      with (close_on error ;; close_times error (S n)).
    unfold bind at 1. rewrite (close_on_accepted _ _ H), (close_run w).
    rewrite IH by (right; reflexivity).
    rewrite close_run. simpl.
    unfold close_request at 2. simpl. rewrite app_nil_r. reflexivity.
Qed.

(** C4, as amended.  [close] is idempotent, and total as long as the
    transport's own [close()] does not raise (or there is no open
    transport to ask): any run of one or more calls then returns without
    raising and leaves what a single call leaves, the instance not
    connected, the lock free, no transport and no protocol; a further
    call changes nothing.  When the transport's [close()] does raise,
    [close] raises that error right there: the transport has been asked
    to close, and the lock, the protocol and the transport reference are
    as they were. *)
Theorem close_idempotent_total (error : option PyExc) (n : nat) (w : World) :
  (error = None \/ close_request (self w) = [] ->
   let w' := after (close_times error (S n)) w in
   result (close_times error (S n)) w = Returned tt
   /\ w' = after (close_on error) w
   /\ result is_connected w' = Returned false
   /\ _connect_lock (self w') = false
   /\ transport (self w') = None
   /\ protocol (self w') = None
   /\ close_on error w' = (Returned tt, w'))
  /\ (forall e t,
        error = Some e -> transport (self w) = Some t -> is_closing t = false ->
        let w1 := after (close_on error) w in
        result (close_on error) w = Raised e
        /\ _connect_lock (self w1) = _connect_lock (self w)
        /\ protocol (self w1) = protocol (self w)
        /\ (exists t', transport (self w1) = Some t'
                       /\ transport_id t' = transport_id t)
        /\ configuration (self w1) = configuration (self w)
        /\ contexts w1 = contexts w
        /\ trace w1 = trace w ++ [EvTransportClose (transport_id t)]).
Proof.
  split.
  - intros H. unfold after, result.
    rewrite (close_times_run _ _ _ H), (close_on_accepted _ _ H), close_run.
    simpl. rewrite close_on_accepted by (right; reflexivity).
    rewrite close_run. simpl. unfold close_request at 2. simpl.
    rewrite app_nil_r. repeat split.
  - intros e t -> Ht Hc. unfold after, result. rewrite close_on_run.
    unfold close_request, lose_connection. rewrite Ht, Hc. simpl.
    repeat split. eexists; split; reflexivity.
Qed.

(** ** The liveness check *)



(** ** execute_command on a live connection *)

Lemma live_inv (s : SMTPConnection) :
  live s = true ->
  exists id p, transport s = Some (mkTransport id false) /\ protocol s = Some p.
Proof.
  unfold live.
  destruct (transport s) as [[id [|]]|], (protocol s); try discriminate.
  eauto.
Qed.

(** C7. On a live connection, a response with the "domain unavailable"
    code (421) is returned to the caller after [close] has run: the
    transport is asked to close (unless the peer's hanging up has put it
    in closing already), the references are cleared and the lock
    released, so the instance is no longer connected; a response with any
    other code is returned with the instance left as it was (nothing is
    closed, nothing but the command reaches the outside), and it is still
    connected unless the peer itself hung up meanwhile.  Either way the
    stored configuration stays. *)
Theorem execute_command_unavailable_closes
    (env : Env) (args : list bytes) (timeout_ : Default (option seconds))
    (w : World) (r : SMTPResponse) :
  live (self w) = true ->
  execute_command_result env = Returns r ->
  let w' := after (execute_command env args timeout_) w in
  result (execute_command env args timeout_) w = Returned r
  /\ (code r = SMTPStatus.domain_unavailable ->
      result is_connected w' = Returned false
      /\ transport (self w') = None
      /\ protocol (self w') = None
      /\ _connect_lock (self w') = false)
  /\ (code r <> SMTPStatus.domain_unavailable ->
      self w' = (if connection_lost env then lose_connection (self w) else self w)
      /\ trace w' =
           trace w ++ [EvExecuteCommand args
                         match timeout_ with
                         | given t => t
                         | _default => timeout (self w)
                         end]
      /\ (connection_lost env = false -> result is_connected w' = Returned true))
  /\ (code r = SMTPStatus.domain_unavailable ->
      forall t, transport (self w) = Some t ->
        trace w' =
          trace w ++ [EvExecuteCommand args
                        match timeout_ with
                        | given t => t
                        | _default => timeout (self w)
                        end]
                  ++ (if connection_lost env then []
                      else [EvTransportClose (transport_id t)]))
  /\ configuration (self w') = configuration (self w)
  /\ contexts w' = contexts w.
Proof.
  intros Hlive Hres.
  destruct (live_inv _ Hlive) as (id & p & Ht & Hp).
  destruct w as [s ctxs tr]. destruct s as [p' t h po ti u sa v cc ck tc cb l lk].
  simpl in Ht, Hp. subst.
  unfold execute_command; destruct timeout_ as [|tm]; run; rewrite Hres; run.
  all: destruct (connection_lost env); run.
  all: destruct (Z.eqb_spec (code r) SMTPStatus.domain_unavailable) as [E|E]; run.
  all: repeat split; try congruence; try (destruct lk; reflexivity).
  all: intros E' t [= <-];
    first [congruence | destruct lk; run; rewrite <- ?app_assoc; reflexivity].
Qed.

(** ** The TLS context builder *)

Ltac run_ssl :=
  cbv beta iota zeta delta
    [ssl_create_default_context update_context get_context
     SSLContext_set_check_hostname SSLContext_set_verify_mode
     SSLContext_load_verify_locations SSLContext_load_cert_chain
     purpose check_hostname verify_mode verify_locations cert_chain
     built_context].

Lemma lookup_snoc {A} (l : list A) (x : A) : (l ++ [x]) !! length l = Some x.
Proof. now apply list_lookup_middle. Qed.

Lemma alter_snoc {A} (f : A -> A) (l : list A) (x : A) :
  alter f (length l) (l ++ [x]) = l ++ [f x].
Proof. induction l as [|y l IH]; simpl; [reflexivity | now f_equal]. Qed.

Ltac run_tls :=
  repeat (run; run_ssl; rewrite ?alter_snoc, ?lookup_snoc);
  repeat match goal with
         | |- context [load_verify_locations_result ?env ?f] =>
             destruct (load_verify_locations_result env f) eqn:?;
             repeat (run; run_ssl; rewrite ?alter_snoc, ?lookup_snoc)
         | |- context [load_cert_chain_result ?env ?f ?k] =>
             destruct (load_cert_chain_result env f k) eqn:?;
             repeat (run; run_ssl; rewrite ?alter_snoc, ?lookup_snoc)
         end.

Lemma get_tls_context_untouched (env : Env) :
  keeps contexts_untouched (_get_tls_context env).
Proof.
  intros w r c Hr.
  destruct w as [s ctxs tr]. destruct s as [p t h po ti u sa v cc ck tc cb l lk].
  simpl in Hr. unfold _get_tls_context.
  destruct tc as [ctx|]; [exact Hr|].
  destruct v, cb as [cafile|], cc as [certfile|]; run_tls.
  all: apply lookup_app_l_Some; exact Hr.
Qed.

Lemma get_tls_context_same_self (env : Env) :
  keeps same_self (_get_tls_context env).
Proof.
  intros w. unfold same_self.
  destruct w as [s ctxs tr]. destruct s as [p t h po ti u sa v cc ck tc cb l lk].
  unfold _get_tls_context.
  destruct tc as [ctx|]; [reflexivity|].
  destruct v, cb as [cafile|], cc as [certfile|]; run_tls; reflexivity.
Qed.

(** C9. A supplied TLS context is handed back as it is, with nothing
    done to it or to anything else.  Without one, and with the bundle and
    the client certificate loading, a fresh client-purpose context is
    built: hostname check and certificate verification both on when
    [validate_certs] holds and both off otherwise, the bundle (when set)
    loaded as trust anchor, the client certificate (when set) loaded with
    the client key.  Whatever happens, no context that existed before is
    changed. *)
Theorem get_tls_context_builds (env : Env) (w : World) :
  (forall r, tls_context (self w) = Some r ->
     _get_tls_context env w = (Returned r, w))
  /\ (tls_context (self w) = None ->
      (forall cafile, cert_bundle (self w) = Some cafile ->
         load_verify_locations_result env cafile = None) ->
      (forall certfile, client_cert (self w) = Some certfile ->
         load_cert_chain_result env certfile (client_key (self w)) = None) ->
      let w' := after (_get_tls_context env) w in
      exists c,
        result (_get_tls_context env) w = Returned (length (contexts w))
        /\ contexts w' = contexts w ++ [c]
        /\ self w' = self w
        /\ purpose c = SERVER_AUTH
        /\ check_hostname c = validate_certs (self w)
        /\ verify_mode c =
             (if validate_certs (self w) then CERT_REQUIRED else CERT_NONE)
        /\ verify_locations c =
             match cert_bundle (self w) with
             | Some cafile => [cafile]
             | None => []
             end
        /\ cert_chain c =
             match client_cert (self w) with
             | Some certfile => [(certfile, client_key (self w))]
             | None => []
             end)
  /\ contexts_untouched w (after (_get_tls_context env) w).
Proof.
  split; [|split].
  - intros r Hr. destruct w as [s ctxs tr].
    destruct s as [p t h po ti u sa v cc ck tc cb l lk].
    simpl in Hr. subst tc. reflexivity.
  - intros Hnone Hbundle Hcert w'. exists (built_context (self w)). subst w'.
    destruct w as [s ctxs tr].
    destruct s as [p t h po ti u sa v cc ck tc cb l lk].
    simpl in Hnone, Hbundle, Hcert. subst tc.
    unfold _get_tls_context.
    destruct v, cb as [cafile|], cc as [certfile|]; run_tls;
      repeat match goal with
             | H : load_verify_locations_result _ _ = Some _ |- _ =>
                 rewrite (Hbundle _ eq_refl) in H; discriminate H
             | H : load_cert_chain_result _ _ _ = Some _ |- _ =>
                 rewrite (Hcert _ eq_refl) in H; discriminate H
             end;
      repeat split.
  - apply get_tls_context_untouched.
Qed.

(** ** connect *)

Lemma if_not_None_modify {A B} (x : option A)
    (f : A -> SMTPConnection -> SMTPConnection) (k : unit -> M B) s ctxs tr :
  bind (if_not_None x (fun v => modify (f v))) k (mkWorld s ctxs tr) =
  k tt (mkWorld (assign_if_not_None x f s) ctxs tr).
Proof. destruct x; reflexivity. Qed.

Lemma if_not_default_modify {A B} (x : Default A)
    (f : A -> SMTPConnection -> SMTPConnection) (k : unit -> M B) s ctxs tr :
  bind (if_not_default x (fun v => modify (f v))) k (mkWorld s ctxs tr) =
  k tt (mkWorld (assign_if_not_default x f s) ctxs tr).
Proof. destruct x; reflexivity. Qed.

Lemma resolve_port_run {B} (k : unit -> M B) s ctxs tr :
  bind (getattr port) (fun p =>
    bind match p with
         | None =>
             tls <- getattr use_tls ;;
             modify (set_port (Some (if tls then SMTP_TLS_PORT else SMTP_PORT)))
         | Some _ => ret tt
         end k) (mkWorld s ctxs tr) =
  k tt (mkWorld (resolve_port s) ctxs tr).
Proof.
  unfold bind at 1, resolve_port. simpl. destruct (port s); reflexivity.
Qed.

Lemma Lock_acquire_free {B} (k : unit -> M B) (w : World) :
  _connect_lock (self w) = false ->
  bind Lock_acquire k w =
  k tt (mkWorld (set_connect_lock true (self w)) (contexts w) (trace w)).
Proof.
  intros Hfree. unfold bind, Lock_acquire, Lock_locked, getattr, bind.
  rewrite Hfree. reflexivity.
Qed.

Lemma Lock_acquire_held {B} (k : unit -> M B) (w : World) :
  _connect_lock (self w) = true -> bind Lock_acquire k w = (Suspended, w).
Proof.
  intros Hheld. unfold bind, Lock_acquire, Lock_locked, getattr, bind.
  rewrite Hheld. reflexivity.
Qed.

Lemma connect_run (env : Env) (a : ConnectArgs) (w : World) :
  _connect_lock (self w) = false ->
  connect env a w =
  connect_tail env
    (mkWorld (overrides a (set_connect_lock true (self w))) (contexts w) (trace w)).
Proof.
  intros Hfree. unfold connect. rewrite Lock_acquire_free by exact Hfree.
  rewrite !if_not_None_modify.
  rewrite resolve_port_run.
  rewrite !if_not_default_modify.
  reflexivity.
Qed.

Ltac frame_step R :=
  first
    [ simple apply (keeps_ret R) | simple apply (keeps_raise R)
    | simple apply (keeps_suspend R)
    | simple apply (keeps_getattr R) | simple apply (keeps_of_outcome R)
    | simple apply (keeps_bind R); [| intros ?]
    | simple apply (keeps_try_except R); [| intros ?]
    | simple apply (keeps_when R)
    | simple apply (keeps_if_not_None R); intros ?
    | simple apply (keeps_if_not_default R); intros ?
    | match goal with
      | |- keeps _ (match ?x with _ => _ end) => destruct x
      | |- keeps _ (let _ := _ in _) => cbv zeta
      end ].

Lemma emit_keeps_configuration ev : keeps same_configuration (emit ev).
Proof. now intros w. Qed.

Lemma modify_keeps_configuration f :
  (forall s, configuration (f s) = configuration s) ->
  keeps same_configuration (modify f).
Proof. intros Hf w. apply Hf. Qed.

Lemma get_tls_context_keeps_configuration env :
  keeps same_configuration (_get_tls_context env).
Proof.
  intros w. unfold same_configuration.
  now rewrite (get_tls_context_same_self env w).
Qed.

Lemma await_protocol_keeps_configuration {A} env ev (o : Outcome A) :
  keeps same_configuration (await_protocol env ev o).
Proof.
  unfold await_protocol. repeat frame_step same_configuration.
  - apply emit_keeps_configuration.
  - apply modify_keeps_configuration. intros s. unfold lose_connection.
    now destruct (transport s).
Qed.

Lemma create_connection_keeps_configuration env :
  keeps same_configuration (_create_connection env).
Proof.
  unfold _create_connection.
  repeat first
    [ frame_step same_configuration
    | simple apply close_keeps_configuration
    | apply emit_keeps_configuration
    | apply get_tls_context_keeps_configuration
    | apply await_protocol_keeps_configuration
    | apply modify_keeps_configuration; intros ?; reflexivity ].
Qed.

Lemma connect_tail_keeps_configuration env :
  keeps same_configuration (connect_tail env).
Proof.
  unfold connect_tail.
  repeat first
    [ frame_step same_configuration
    | simple apply create_connection_keeps_configuration ].
Qed.

Lemma connect_suspended (env : Env) (a : ConnectArgs) (w : World) :
  _connect_lock (self w) = true -> connect env a w = (Suspended, w).
Proof. intros Hheld. unfold connect. now rewrite Lock_acquire_held. Qed.


(** Reading an attribute through a guarded assignment to another one. *)
Ltac peel :=
  repeat match goal with
         | |- ?P (assign_if_not_None ?x ?f ?s) = _ =>
             transitivity (P s); [destruct x; reflexivity|]
         | |- ?P (assign_if_not_default ?x ?f ?s) = _ =>
             transitivity (P s); [destruct x; reflexivity|]
         | |- ?P (resolve_port ?s) = _ =>
             transitivity (P s);
             [unfold resolve_port; destruct (port s); reflexivity|]
         end.

Ltac hit :=
  match goal with
  | |- ?P (assign_if_not_None ?x ?f ?s) = _ => destruct x; cbn
  | |- ?P (assign_if_not_default ?x ?f ?s) = _ => destruct x; cbn
  end.

Lemma overrides_use_tls a s :
  use_tls (overrides a s) =
  match arg_use_tls a with Some v => v | None => use_tls s end.
Proof. unfold overrides. peel. hit; peel; reflexivity. Qed.

Lemma overrides_port a s :
  port (overrides a s) =
  match arg_port a with
  | Some v => Some v
  | None =>
      match port s with
      | Some v => Some v
      | None => Some (if use_tls (overrides a s) then SMTP_TLS_PORT else SMTP_PORT)
      end
  end.
Proof.
  rewrite overrides_use_tls. unfold overrides. peel.
  unfold resolve_port.
  destruct (arg_port a) as [v|]; cbn; [reflexivity|].
  match goal with |- context [set_port _ ?S] =>
    assert (Hp : port S = port s) by (peel; reflexivity);
    assert (Hu : use_tls S = match arg_use_tls a with
                             | Some v => v
                             | None => use_tls s
                             end)
      by (peel; hit; peel; reflexivity);
    rewrite Hp, Hu; destruct (port s) as [v|]; [exact Hp | reflexivity]
  end.
Qed.

Lemma overrides_hostname a s :
  hostname (overrides a s) =
  match arg_hostname a with Some v => Some v | None => hostname s end.
Proof. unfold overrides. peel. hit; reflexivity. Qed.

Lemma overrides_validate_certs a s :
  validate_certs (overrides a s) =
  match arg_validate_certs a with Some v => v | None => validate_certs s end.
Proof. unfold overrides. peel. hit; peel; reflexivity. Qed.

Lemma overrides_loop a s :
  loop (overrides a s) = match arg_loop a with Some v => v | None => loop s end.
Proof. unfold overrides. peel. hit; peel; reflexivity. Qed.

Lemma overrides_timeout a s :
  timeout (overrides a s) =
  match arg_timeout a with given v => v | _default => timeout s end.
Proof. unfold overrides. peel. hit; peel; reflexivity. Qed.

Lemma overrides_source_address a s :
  _source_address (overrides a s) =
  match arg_source_address a with
  | given v => v
  | _default => _source_address s
  end.
Proof. unfold overrides. peel. hit; peel; reflexivity. Qed.

Lemma overrides_client_cert a s :
  client_cert (overrides a s) =
  match arg_client_cert a with given v => v | _default => client_cert s end.
Proof. unfold overrides. peel. hit; peel; reflexivity. Qed.

Lemma overrides_client_key a s :
  client_key (overrides a s) =
  match arg_client_key a with given v => v | _default => client_key s end.
Proof. unfold overrides. peel. hit; peel; reflexivity. Qed.

Lemma overrides_tls_context a s :
  tls_context (overrides a s) =
  match arg_tls_context a with given v => v | _default => tls_context s end.
Proof. unfold overrides. peel. hit; peel; reflexivity. Qed.

Lemma overrides_cert_bundle a s :
  cert_bundle (overrides a s) =
  match arg_cert_bundle a with given v => v | _default => cert_bundle s end.
Proof. unfold overrides. peel. hit; peel; reflexivity. Qed.





(** ** _create_connection, stage by stage *)

Lemma create_connection_stages (env : Env) :
  _create_connection env =
  (host <- getattr hostname ;;
   match host with
   | None => raise (mkExc ValueError "Hostname must be set.")
   | Some host =>
       port_ <- getattr port ;;
       match port_ with
       | None => raise (mkExc ValueError "Port must be set.")
       | Some port_ =>
           loop_ <- getattr loop ;;
           tls_context_ <- tls_stage env ;;
           transport_ <- open_stage env host port_ tls_context_ ;;
           modify (set_protocol (Some (mkProtocol loop_))) ;;
           modify (set_transport (Some transport_)) ;;
           greeting_stage env
       end
   end).
Proof. reflexivity. Qed.

Lemma tls_stage_same_self (env : Env) : keeps same_self (tls_stage env).
Proof.
  intros w. unfold same_self, tls_stage, after, bind. simpl.
  destruct (use_tls (self w)); [|reflexivity].
  generalize (get_tls_context_same_self env w). unfold same_self, after.
  destruct (_get_tls_context env w) as [[r|e|] w1]; auto.
Qed.

Lemma open_stage_returns env host p ctx w t :
  create_connection_result env = Returns t ->
  open_stage env host p ctx w =
  (Returned t,
   mkWorld (self w) (contexts w)
           (trace w ++ [EvCreateConnection host p ctx (timeout (self w))])).
Proof.
  intros Hopen. destruct w as [s ctxs tr]. unfold open_stage. run.
  rewrite Hopen. reflexivity.
Qed.

Lemma open_stage_raises env host p ctx w err :
  create_connection_result env = Raises err ->
  let attempt := [EvCreateConnection host p ctx (timeout (self w))] in
  let torn_down :=
    mkWorld (closed (self w)) (contexts w)
            (trace w ++ attempt ++ close_request (self w)) in
  open_stage env host p ctx w =
  if isinstance err [ConnectionRefusedError; OSError] then
    (Raised (mkExc SMTPConnectError
               ("Error connecting to " +:+ format_str (hostname (self w))
                +:+ " on port " +:+ format_int (port (self w)) +:+ ": "
                +:+ exc_str err)),
     torn_down)
  else if isinstance err [asyncio_TimeoutError] then
    (Raised (mkExc SMTPConnectTimeoutError
               ("Timed out connecting to " +:+ format_str (hostname (self w))
                +:+ " on port " +:+ format_int (port (self w)))),
     torn_down)
  else (Raised err, mkWorld (self w) (contexts w) (trace w ++ attempt)).
Proof.
  intros Hopen. destruct w as [s ctxs tr].
  destruct s as [pr t h po ti u sa v cc ck tc cb l lk].
  unfold open_stage. run. rewrite Hopen. run.
  destruct (isinstance err [ConnectionRefusedError; OSError]);
    [|destruct (isinstance err [asyncio_TimeoutError])]; run;
    try reflexivity.
  all: destruct t as [[id [|]]|], lk; run; rewrite <- ?app_assoc; reflexivity.
Qed.

Lemma greeting_stage_run env w :
  let s1 := if connection_lost env then lose_connection (self w) else self w in
  let tr1 := trace w ++ [EvReadResponse (timeout (self w))] in
  let torn_down :=
    mkWorld (closed (self w)) (contexts w) (tr1 ++ close_request s1) in
  greeting_stage env w =
  match read_response_result env with
  | Returns r =>
      if code r =? SMTPStatus.ready
      then (Returned r, mkWorld s1 (contexts w) tr1)
      else (Raised (mkExc SMTPConnectError (response_str r)), torn_down)
  | Raises err =>
      if isinstance err [asyncio_TimeoutError]
      then (Raised greeting_timeout, torn_down)
      else (Raised err, mkWorld s1 (contexts w) tr1)
  end.
Proof.
  destruct w as [s ctxs tr].
  destruct s as [pr t h po ti u sa v cc ck tc cb l lk].
  unfold greeting_stage, greeting_timeout. run.
  destruct (connection_lost env), (read_response_result env) as [r|err]; run.
  all: try destruct (code r =? SMTPStatus.ready); run.
  all: try destruct (isinstance err [asyncio_TimeoutError]); run.
  all: try reflexivity.
  all: destruct t as [[id [|]]|], lk; run; rewrite <- ?app_assoc; reflexivity.
Qed.

Lemma bind_getattr {A B} (f : SMTPConnection -> A) (k : A -> M B) w :
  bind (getattr f) k w = k (f (self w)) w.
Proof. reflexivity. Qed.

Lemma bind_modify {B} f (k : unit -> M B) w :
  bind (modify f) k w = k tt (mkWorld (f (self w)) (contexts w) (trace w)).
Proof. reflexivity. Qed.

Lemma create_connection_run env w host p ctx w1 t :
  hostname (self w) = Some host ->
  port (self w) = Some p ->
  tls_stage env w = (Returned ctx, w1) ->
  create_connection_result env = Returns t ->
  _create_connection env w =
  greeting_stage env
    (mkWorld (set_transport (Some t)
                (set_protocol (Some (mkProtocol (loop (self w)))) (self w)))
             (contexts w1)
             (trace w1 ++ [EvCreateConnection host p ctx (timeout (self w))])).
Proof.
  intros Hhost Hport Htls Hopen.
  assert (Hself : self w1 = self w).
  { generalize (tls_stage_same_self env w). unfold same_self, after.
    now rewrite Htls. }
  rewrite create_connection_stages.
  rewrite bind_getattr, Hhost, bind_getattr, Hport, bind_getattr.
  rewrite (bind_returned _ _ _ _ _ Htls).
  rewrite (bind_returned _ _ _ _ _ (open_stage_returns _ _ _ _ _ _ Hopen)).
  rewrite !bind_modify. simpl. rewrite Hself. reflexivity.
Qed.

Lemma create_connection_returned env w r w' :
  _create_connection env w = (Returned r, w') ->
  read_response_result env = Returns r /\ code r = SMTPStatus.ready.
Proof.
  rewrite create_connection_stages. rewrite bind_getattr.
  destruct (hostname (self w)) as [host|]; [|discriminate].
  rewrite bind_getattr.
  destruct (port (self w)) as [p|]; [|discriminate].
  rewrite bind_getattr.
  unfold bind at 1. destruct (tls_stage env w) as [[ctx|e|] w1]; try discriminate.
  unfold bind at 1.
  destruct (create_connection_result env) as [t|err] eqn:Hopen.
  - rewrite (open_stage_returns _ _ _ _ _ _ Hopen).
    rewrite !bind_modify.
    rewrite greeting_stage_run. cbv zeta.
    destruct (read_response_result env) as [r'|err].
    + destruct (Z.eqb_spec (code r') SMTPStatus.ready); [|discriminate].
      intros [= -> _]. auto.
    + destruct (isinstance err [asyncio_TimeoutError]); discriminate.
  - rewrite (open_stage_raises _ _ _ _ _ _ Hopen). cbv zeta.
    destruct (isinstance err [ConnectionRefusedError; OSError]);
      [|destruct (isinstance err [asyncio_TimeoutError])]; discriminate.
Qed.

Lemma tls_stage_returns env w :
  use_tls (self w) = false
  \/ (exists ctx, result (_get_tls_context env) w = Returned ctx) ->
  exists ctx w1, tls_stage env w = (Returned ctx, w1).
Proof.
  intros Htls. unfold tls_stage. rewrite bind_getattr.
  destruct (use_tls (self w)) eqn:Huse.
  - destruct Htls as [Hoff|[ctx Hctx]]; [discriminate|].
    unfold result in Hctx. unfold bind.
    destruct (_get_tls_context env w) as [[r|e|] w1]; try discriminate.
    now exists (Some r), w1.
  - now exists None, w.
Qed.

Lemma connect_tail_returned env w r w' :
  connect_tail env w = (Returned r, w') ->
  _create_connection env w = (Returned r, w').
Proof.
  unfold connect_tail. rewrite !bind_getattr.
  destruct (tls_context (self w)), (client_cert (self w)); try discriminate.
  all: unfold bind;
    destruct (_create_connection env w) as [[r'|e|] w2]; try discriminate;
    now intros [= -> ->].
Qed.

(** C6. Once the transport has opened: a greeting that does not arrive
    in time closes the connection (references cleared, lock released,
    the new transport asked to close) and raises the connect-timeout
    error; a greeting whose code is not 220 closes it likewise and raises
    the connect error carrying [str(response)]; a 220 greeting is
    returned.  And whatever [connect] returns is that 220 greeting. *)
Theorem greeting_decides_connect :
  (forall (env : Env) (w : World) (host : string) (p : Z) (t : Transport),
     hostname (self w) = Some host ->
     port (self w) = Some p ->
     (use_tls (self w) = false
      \/ exists ctx, result (_get_tls_context env) w = Returned ctx) ->
     create_connection_result env = Returns t ->
     let w' := after (_create_connection env) w in
     let outcome := result (_create_connection env) w in
     let closed_first :=
       transport (self w') = None
       /\ protocol (self w') = None
       /\ _connect_lock (self w') = false
       /\ result is_connected w' = Returned false
       /\ (is_closing t = false -> connection_lost env = false ->
           In (EvTransportClose (transport_id t)) (trace w')) in
     (forall err,
        read_response_result env = Raises err ->
        isinstance err [asyncio_TimeoutError] = true ->
        outcome = Raised greeting_timeout /\ closed_first)
     /\ (forall r,
           read_response_result env = Returns r ->
           code r <> SMTPStatus.ready ->
           outcome = Raised (mkExc SMTPConnectError (response_str r))
           /\ closed_first)
     /\ (forall r,
           read_response_result env = Returns r ->
           code r = SMTPStatus.ready ->
           outcome = Returned r
           /\ protocol (self w') = Some (mkProtocol (loop (self w)))
           /\ _connect_lock (self w') = _connect_lock (self w)
           /\ transport (self w') =
                Some (if connection_lost env
                      then mkTransport (transport_id t) true else t)))
  /\ (forall (env : Env) (a : ConnectArgs) (w w' : World) (r : SMTPResponse),
        connect env a w = (Returned r, w') ->
        read_response_result env = Returns r /\ code r = SMTPStatus.ready).
Proof.
  split.
  - intros env w host p t Hhost Hport Htls Hopen w' outcome closed_first.
    destruct (tls_stage_returns env w Htls) as (ctx & w1 & Hstage).
    assert (Hrun := create_connection_run env w host p ctx w1 t
                      Hhost Hport Hstage Hopen).
    rewrite greeting_stage_run in Hrun. cbv zeta in Hrun.
    subst closed_first outcome w'. unfold result, after. rewrite Hrun.
    clear Hrun Hstage Htls. destruct t as [id closing].
    split; [|split].
    + intros err -> ->. simpl. repeat split.
      intros Hclosing Hlost. simpl in Hclosing. subst closing. rewrite Hlost.
      apply in_or_app. right. now left.
    + intros r -> Hcode. destruct (Z.eqb_spec (code r) SMTPStatus.ready) as [E|E];
        [contradiction|].
      simpl. repeat split.
      intros Hclosing Hlost. simpl in Hclosing. subst closing. rewrite Hlost.
      apply in_or_app. right. now left.
    + intros r -> Hcode. destruct (Z.eqb_spec (code r) SMTPStatus.ready) as [E|E];
        [|contradiction].
      simpl. destruct (connection_lost env); repeat split.
  - intros env a w w' r Hconnect.
    destruct (_connect_lock (self w)) eqn:Hlock.
    + rewrite connect_suspended in Hconnect by exact Hlock. discriminate.
    + rewrite connect_run in Hconnect by exact Hlock.
      apply connect_tail_returned in Hconnect.
      now apply create_connection_returned in Hconnect.
Qed.

(** ** The mutual exclusion of TLS context and client certificate *)

Lemma connect_exclusive env a w ctx cert :
  _connect_lock (self w) = false ->
  match arg_tls_context a with
  | given v => v
  | _default => tls_context (self w)
  end = Some ctx ->
  match arg_client_cert a with
  | given v => v
  | _default => client_cert (self w)
  end = Some cert ->
  connect env a w =
  (Raised exclusive_options,
   mkWorld (overrides a (set_connect_lock true (self w))) (contexts w) (trace w)).
Proof.
  intros Hfree Hctx Hcert. rewrite connect_run by exact Hfree.
  unfold connect_tail. rewrite !bind_getattr. cbn [self].
  rewrite overrides_tls_context, overrides_client_cert.
  change (tls_context (set_connect_lock true (self w))) with (tls_context (self w)).
  change (client_cert (set_connect_lock true (self w))) with (client_cert (self w)).
  rewrite Hctx, Hcert. reflexivity.
Qed.

(** C5, as amended.  A TLS context together with a client certificate is
    refused with the configuration error: by the constructor when both
    are passed to it, and by every [connect] that gets the lock and finds
    both set once
    its arguments are stored, whichever of the two was there before and
    whichever the call brings; then no connection is attempted.  A
    [connect] that finds the lock held waits for it before anything else,
    so with both set no call ever returns a response or reaches the
    network. *)
Theorem tls_context_excludes_client_cert :
  (forall (env : Env) hostname_ port_ source_address_ timeout_ loop_
          use_tls_ validate_certs_ client_key_ cert_bundle_
          (ctx : SSLRef) (cert : string),
     __init__ env hostname_ port_ source_address_ timeout_ loop_ use_tls_
              validate_certs_ (Some cert) client_key_ (Some ctx) cert_bundle_
     = Raises exclusive_options)
  /\ (forall (env : Env) (a : ConnectArgs) (w : World)
             (ctx : SSLRef) (cert : string),
        _connect_lock (self w) = false ->
        match arg_tls_context a with
        | given v => v
        | _default => tls_context (self w)
        end = Some ctx ->
        match arg_client_cert a with
        | given v => v
        | _default => client_cert (self w)
        end = Some cert ->
        result (connect env a) w = Raised exclusive_options
        /\ trace (after (connect env a) w) = trace w)
  /\ (forall (env : Env) (a : ConnectArgs) (w : World)
             (ctx : SSLRef) (cert : string),
        match arg_tls_context a with
        | given v => v
        | _default => tls_context (self w)
        end = Some ctx ->
        match arg_client_cert a with
        | given v => v
        | _default => client_cert (self w)
        end = Some cert ->
        result (connect env a) w =
          (if _connect_lock (self w) then Suspended
           else Raised exclusive_options)
        /\ trace (after (connect env a) w) = trace w).
Proof.
  split; [|split].
  - reflexivity.
  - intros env a w ctx cert Hfree Hctx Hcert. unfold result, after.
    rewrite (connect_exclusive env a w ctx cert Hfree Hctx Hcert).
    split; reflexivity.
  - intros env a w ctx cert Hctx Hcert. unfold result, after.
    destruct (_connect_lock (self w)) eqn:Hlock.
    + rewrite connect_suspended by exact Hlock. split; reflexivity.
    + rewrite (connect_exclusive env a w ctx cert Hlock Hctx Hcert).
      split; reflexivity.
Qed.

(** C1, at the input where it fails.  An instance built with a TLS
    context on a given loop, then [connect] called with a client
    certificate: the call raises the configuration error and the lock it
    took stays held, so the next [connect] waits for a lock nobody
    releases.  The same goes for an instance whose hostname has been
    unset. *)
Theorem connect_configuration_error_keeps_lock
    (env : Env) (ctxs : list SSLContext) (l : Loop) :
  let a := mkConnectArgs None None _default _default None None None
             (given (Some "client.pem")) _default _default _default in
  let retry := mkConnectArgs None None _default _default None None None
                 (given None) _default _default _default in
  exists s0 w1 w2,
    __init__ env "localhost" None None (Some DEFAULT_TIMEOUT) (Some l) false
             true None None (Some 0%nat) None = Returns s0
    /\ _connect_lock s0 = false
    /\ connect env a (mkWorld s0 ctxs []) = (Raised exclusive_options, w1)
    /\ _connect_lock (self w1) = true
    /\ connect env retry w1 = (Suspended, w1)
    /\ connect env no_arguments (mkWorld (set_hostname None sample_instance) ctxs [])
       = (Raised (mkExc ValueError "Hostname must be set."), w2)
    /\ _connect_lock (self w2) = true.
Proof.
  intros a retry. do 3 eexists.
  split; [reflexivity|]. split; [reflexivity|].
  split; [|split; [|split; [|split]]].
  - apply (connect_exclusive env a _ 0%nat "client.pem"); reflexivity.
  - reflexivity.
  - apply connect_suspended. reflexivity.
  - reflexivity.
  - reflexivity.
Qed.

(** ** What connect leaves stored *)

Lemma connect_configuration env a w :
  _connect_lock (self w) = false ->
  configuration (self (after (connect env a) w)) =
  configuration (overrides a (self w)).
Proof.
  intros Hfree. unfold after. rewrite connect_run by exact Hfree.
  match goal with
  | |- context [connect_tail env ?W] =>
      assert (Htail := connect_tail_keeps_configuration env W)
  end.
  unfold same_configuration, after in Htail. rewrite Htail. cbn [self].
  unfold configuration.
  rewrite !overrides_hostname, !overrides_port, !overrides_timeout,
    !overrides_use_tls, !overrides_source_address, !overrides_validate_certs,
    !overrides_client_cert, !overrides_client_key, !overrides_tls_context,
    !overrides_cert_bundle, !overrides_loop.
  reflexivity.
Qed.

#[local] Instance extends_quietly_refl : Reflexive extends_quietly.
Proof. intros w. exists []. now rewrite app_nil_r. Qed.

#[local] Instance extends_quietly_trans : Transitive extends_quietly.
Proof.
  intros w1 w2 w3 (e1 & H1 & F1) (e2 & H2 & F2). exists (e1 ++ e2). split.
  - now rewrite H2, H1, app_assoc.
  - now apply Forall_app.
Qed.

Lemma trace_kept_quiet {A} (m : M A) :
  (forall w, trace (after m w) = trace w) -> keeps extends_quietly m.
Proof. intros H w. exists []. now rewrite H, app_nil_r. Qed.

Lemma emit_quiet ev : is_attempt ev = false -> keeps extends_quietly (emit ev).
Proof. intros H w. exists [ev]. split; [reflexivity | now constructor]. Qed.

Lemma close_quiet : keeps extends_quietly close.
Proof.
  intros w. unfold after. rewrite close_run. exists (close_request (self w)).
  split; [reflexivity|]. unfold close_request.
  destruct (transport (self w)) as [[id [|]]|]; repeat constructor.
Qed.

Lemma get_tls_context_quiet env : keeps extends_quietly (_get_tls_context env).
Proof.
  unfold _get_tls_context, SSLContext_set_verify_mode,
    SSLContext_load_verify_locations, SSLContext_load_cert_chain,
    SSLContext_set_check_hostname.
  repeat first
    [ frame_step extends_quietly
    | simple apply emit_quiet; reflexivity
    | apply trace_kept_quiet; intros ?; reflexivity ].
Qed.

Lemma tls_stage_quiet env : keeps extends_quietly (tls_stage env).
Proof.
  unfold tls_stage.
  repeat first
    [ frame_step extends_quietly
    | simple apply get_tls_context_quiet ].
Qed.

Lemma greeting_stage_quiet env : keeps extends_quietly (greeting_stage env).
Proof.
  unfold greeting_stage, await_protocol.
  repeat first
    [ frame_step extends_quietly
    | simple apply close_quiet
    | simple apply emit_quiet; reflexivity
    | apply trace_kept_quiet; intros ?; reflexivity ].
Qed.

(** The one connection attempt of [_create_connection] goes to the host
    and port stored on the instance, under the stored timeout. *)
Lemma create_connection_attempts env w :
  exists evs,
    trace (after (_create_connection env) w) = trace w ++ evs
    /\ Forall (fun ev =>
                 forall h p ctx t, ev = EvCreateConnection h p ctx t ->
                   hostname (self w) = Some h /\ port (self w) = Some p
                   /\ timeout (self w) = t) evs.
Proof.
  assert (Hquiet : forall evs, Forall (fun ev => is_attempt ev = false) evs ->
            Forall (fun ev =>
                 forall h p ctx t, ev = EvCreateConnection h p ctx t ->
                   hostname (self w) = Some h /\ port (self w) = Some p
                   /\ timeout (self w) = t) evs).
  { intros evs Hevs. eapply Forall_impl; [exact Hevs|].
    intros ev Hev h p ctx t ->. discriminate. }
  unfold after. rewrite create_connection_stages. rewrite bind_getattr.
  destruct (hostname (self w)) as [host|] eqn:Hhost;
    [|exists []; split; [now rewrite app_nil_r | constructor]].
  rewrite bind_getattr.
  destruct (port (self w)) as [p|] eqn:Hport;
    [|exists []; split; [now rewrite app_nil_r | constructor]].
  rewrite bind_getattr.
  destruct (tls_stage_quiet env w) as (e1 & Ht1 & Hq1).
  assert (Hself := tls_stage_same_self env w).
  unfold same_self, after in Ht1, Hself.
  unfold bind at 1.
  destruct (tls_stage env w) as [[ctx|e|] w1]; cbn [fst snd] in *;
    try (exists e1; split; [exact Ht1 | now apply Hquiet]).
  assert (Hattempt :
    Forall (fun ev =>
              forall h p0 ctx0 t, ev = EvCreateConnection h p0 ctx0 t ->
                Some host = Some h /\ Some p = Some p0 /\ timeout (self w) = t)
           [EvCreateConnection host p ctx (timeout (self w1))]).
  { constructor; [|constructor]. intros h p0 ctx0 t [= <- <- _ <-].
    now rewrite Hself. }
  unfold bind at 1.
  destruct (create_connection_result env) as [t|err] eqn:Hopen.
  - rewrite (open_stage_returns _ _ _ _ _ _ Hopen). rewrite !bind_modify.
    cbn [self contexts trace].
    match goal with
    | |- context [greeting_stage env ?W] =>
        destruct (greeting_stage_quiet env W) as (e2 & Ht2 & Hq2)
    end.
    unfold after in Ht2. cbn [self contexts trace] in Ht2.
    eexists. split.
    + rewrite Ht2, Ht1, <- !app_assoc. reflexivity.
    + apply Forall_app. split; [now apply Hquiet|].
      apply Forall_app. split; [exact Hattempt | now apply Hquiet].
  - rewrite (open_stage_raises _ _ _ _ _ _ Hopen). cbv zeta.
    assert (Hclose : Forall (fun ev => is_attempt ev = false)
                            (close_request (self w1))).
    { unfold close_request.
      destruct (transport (self w1)) as [[id [|]]|]; repeat constructor. }
    destruct (isinstance err [ConnectionRefusedError; OSError]);
      [|destruct (isinstance err [asyncio_TimeoutError])]; cbn [fst snd trace];
      eexists; (split; [rewrite Ht1, <- !app_assoc; reflexivity|]).
    all: apply Forall_app; split; [now apply Hquiet|].
    all: try (apply Forall_app; split; [exact Hattempt | now apply Hquiet]).
    exact Hattempt.
Qed.

Lemma connect_tail_attempts env w :
  exists evs,
    trace (after (connect_tail env) w) = trace w ++ evs
    /\ Forall (fun ev =>
                 forall h p ctx t, ev = EvCreateConnection h p ctx t ->
                   hostname (self w) = Some h /\ port (self w) = Some p
                   /\ timeout (self w) = t) evs.
Proof.
  destruct (create_connection_attempts env w) as (evs & Htrace & Hevs).
  unfold after in *. unfold connect_tail. rewrite !bind_getattr.
  assert (Hsame : ((response <- _create_connection env ;; ret response) w).2
                  = (_create_connection env w).2).
  { unfold bind. now destruct (_create_connection env w) as [[r|e|] w1]. }
  destruct (tls_context (self w)), (client_cert (self w));
    try (exists evs; rewrite Hsame; now split).
  exists []. split; [now rewrite app_nil_r | constructor].
Qed.






(** C3, as amended.  For a [connect] that gets the lock: the six
    keywords whose default is the sentinel ([source_address], [timeout],
    [client_cert], [client_key], [tls_context], [cert_bundle]) are
    respected in full, [None] passed on purpose included.  [hostname],
    [port], [use_tls] and [validate_certs] default to [None]: any other
    value passed is stored, [False], [0] and the empty string included,
    but [None] passed on purpose is the same as nothing passed; and a
    port neither passed nor stored is resolved to 465 under TLS and to 25
    otherwise. *)
Theorem connect_keywords_override (env : Env) (c : ConnectCall) (w : World) :
  _connect_lock (self w) = false ->
  let s := self w in
  let s' := self (after (connect env (bind_arguments c)) w) in
  keyword_respected (kw_source_address c) (_source_address s) (_source_address s')
  /\ keyword_respected (kw_timeout c) (timeout s) (timeout s')
  /\ keyword_respected (kw_client_cert c) (client_cert s) (client_cert s')
  /\ keyword_respected (kw_client_key c) (client_key s) (client_key s')
  /\ keyword_respected (kw_tls_context c) (tls_context s) (tls_context s')
  /\ keyword_respected (kw_cert_bundle c) (cert_bundle s) (cert_bundle s')
  /\ hostname s' = match kw_hostname c with
                   | Some (Some v) => Some v
                   | Some None | None => hostname s
                   end
  /\ use_tls s' = match kw_use_tls c with
                  | Some (Some v) => v
                  | Some None | None => use_tls s
                  end
  /\ validate_certs s' = match kw_validate_certs c with
                         | Some (Some v) => v
                         | Some None | None => validate_certs s
                         end
  /\ port s' = match kw_port c with
               | Some (Some v) => Some v
               | Some None | None =>
                   match port s with
                   | Some v => Some v
                   | None => Some (if use_tls s' then SMTP_TLS_PORT else SMTP_PORT)
                   end
               end.
Proof.
  intros Hfree s s'.
  assert (Hcfg := connect_configuration env (bind_arguments c) w Hfree).
  fold s' in Hcfg. unfold configuration in Hcfg.
  injection Hcfg as Hh Hp Hti Hu Hsa Hv Hcc Hck Htc Hcb Hl.
  rewrite Hh, Hp, Hti, Hu, Hsa, Hv, Hcc, Hck, Htc, Hcb.
  rewrite overrides_hostname, overrides_port, overrides_timeout,
    !overrides_use_tls, overrides_source_address, overrides_validate_certs,
    overrides_client_cert, overrides_client_key, overrides_tls_context,
    overrides_cert_bundle.
  destruct c as [kh kp ksa kt kl ku kv kcc kck ktc kcb]. cbn.
  unfold keyword_respected.
  repeat split.
  - now destruct ksa.
  - now destruct kt.
  - now destruct kcc.
  - now destruct kck.
  - now destruct ktc.
  - now destruct kcb.
  - now destruct kh as [[v|]|].
  - now destruct ku as [[v|]|].
  - now destruct kv as [[v|]|].
  - now destruct kp as [[v|]|].
Qed.

(** ** The scope guard *)

Lemma aexit_is_connection_error_exact (c : PyClass) :
  class_in (Some c) [ConnectionError; SMTPTimeoutError] = true <->
  c = ConnectionError \/ c = SMTPTimeoutError.
Proof.
  unfold class_in. simpl. rewrite !orb_true_iff, !bool_decide_eq_true.
  intuition discriminate.
Qed.

(** What the guard does on exit, case by case. *)
Lemma aexit_run (self_quit : M SMTPResponse) (exc_type_ : option PyClass)
    (w : World) :
  __aexit__ self_quit exc_type_ w =
  if class_in exc_type_ [ConnectionError; SMTPTimeoutError]
     || negb match transport (self w) with
             | Some t => negb (is_closing t)
             | None => false
             end
  then close w
  else match self_quit w with
       | (Returned _, w1) => (Returned tt, w1)
       | (Raised err, w1) =>
           if isinstance err [ConnectionError; SMTPResponseException;
                              SMTPTimeoutError]
           then close w1
           else (Raised err, w1)
       | (Suspended, w1) => (Suspended, w1)
       end.
Proof.
  unfold __aexit__. cbv zeta. unfold bind at 1, is_connected.
  rewrite bind_getattr. unfold ret at 1.
  destruct (class_in exc_type_ [ConnectionError; SMTPTimeoutError] || _);
    [reflexivity|].
  unfold try_except, bind. destruct (self_quit w) as [[r|e|] w1];
    try reflexivity.
  now destruct (isinstance e _).
Qed.

(** When the guard does try [quit] and [quit] raises one of the classes
    of the [except] clause, subclasses included, it closes and lets
    nothing out. *)
Lemma aexit_quit_fallback (self_quit : M SMTPResponse)
    (exc_type_ : option PyClass) (w w1 : World) (err : PyExc) :
  class_in exc_type_ [ConnectionError; SMTPTimeoutError] = false ->
  result is_connected w = Returned true ->
  self_quit w = (Raised err, w1) ->
  isinstance err [ConnectionError; SMTPResponseException; SMTPTimeoutError]
  = true ->
  __aexit__ self_quit exc_type_ w = close w1.
Proof.
  intros Hclass Hconn Hquit Herr. rewrite aexit_run, Hclass, Hquit, Herr.
  unfold result, is_connected in Hconn. rewrite bind_getattr in Hconn.
  injection Hconn as Hconn. now rewrite Hconn.
Qed.

(** C8, at the input where it fails.  The guard is left with a
    [ConnectionResetError], a subclass of [ConnectionError], on a live
    connection: the test on the exception type is by identity and does
    not see the subclass, so the guard calls [quit] instead of closing.
    With the [quit] of this class the [NotImplementedError] gets out and
    the transport stays open; with a [quit] that just returns, nothing is
    closed either. *)
Theorem aexit_subclass_not_force_closed
    (p : SMTPProtocol) (id : nat) (s : SMTPConnection)
    (ctxs : list SSLContext) (tr : list Event) (bye : SMTPResponse) :
  let live_s := set_transport (Some (mkTransport id false))
                  (set_protocol (Some p) s) in
  let w := mkWorld live_s ctxs tr in
  issubclass ConnectionResetError ConnectionError = true
  /\ class_in (Some ConnectionResetError) [ConnectionError; SMTPTimeoutError]
     = false
  /\ __aexit__ (quit _default) (Some ConnectionResetError) w
     = (Raised (mkExc NotImplementedError EmptyString), w)
  /\ __aexit__ (ret bye) (Some ConnectionResetError) w = (Returned tt, w)
  /\ result is_connected w = Returned true
  /\ __aexit__ (quit _default) (Some ConnectionError) w = close w.
Proof.
  intros live_s w. repeat split.
Qed.

(** * Further properties of the class *)

(** ** The constructor *)

(** The constructor checks the two exclusive options first and looks
    for the event loop last.  With a TLS context and a client certificate
    both passed it raises the configuration error, whether a loop can be
    found or not.  Otherwise it fails exactly when no loop is passed and
    [asyncio.get_event_loop] raises, with that error; a client key does
    not count.  What it builds is disconnected: a command on it raises
    the not-connected error and leaves it exactly as it was. *)
Theorem fresh_instance_is_disconnected
    (env : Env) hostname_ port_ source_address_ timeout_ loop_
    use_tls_ validate_certs_ client_cert_ client_key_ tls_context_ cert_bundle_ :
  let made := __init__ env hostname_ port_ source_address_ timeout_ loop_
                use_tls_ validate_certs_ client_cert_ client_key_ tls_context_
                cert_bundle_ in
  let found := match loop_ with
               | Some l => Returns l
               | None => get_event_loop env
               end in
  (tls_context_ <> None /\ client_cert_ <> None ->
   made = Raises exclusive_options)
  /\ (tls_context_ = None \/ client_cert_ = None ->
      (forall e, found = Raises e -> made = Raises e)
      /\ (forall l, found = Returns l ->
            exists s, made = Returns s /\ loop s = l))
  /\ forall s, made = Returns s ->
       client_key s = client_key_
       /\ tls_context s = tls_context_
       /\ client_cert s = client_cert_
       /\ forall env' args tmo ctxs tr,
            execute_command env' args tmo (mkWorld s ctxs tr)
            = (Raised not_connected, mkWorld s ctxs tr).
Proof.
  cbv zeta. unfold __init__. split; [|split].
  - intros [H1 H2]. destruct tls_context_, client_cert_; try congruence.
    reflexivity.
  - intros H. split.
    + intros e ->. destruct tls_context_, client_cert_, H; try discriminate;
        reflexivity.
    + intros l ->. destruct tls_context_, client_cert_, H; try discriminate;
        eexists; split; reflexivity.
  - intros s Hs.
    assert (Hfresh : transport s = None /\ protocol s = None
                     /\ _connect_lock s = false
                     /\ client_key s = client_key_
                     /\ tls_context s = tls_context_
                     /\ client_cert s = client_cert_).
    { destruct (match loop_ with
                | Some l => Returns l
                | None => get_event_loop env
                end) as [l|e];
        destruct tls_context_, client_cert_; try discriminate Hs;
        injection Hs as <-; repeat split. }
    destruct Hfresh as (Ht & Hp & Hl & Hk & Hc & Hcc).
    repeat split; try assumption.
    intros env' args tmo ctxs tr.
    destruct s as [p t h po ti u sa v cc ck tc cb l lk]. simpl in *. subst.
    unfold execute_command. destruct tmo; reflexivity.
Qed.

(** ** Errors of a command *)

(** When the protocol reports that the server has gone, whatever subclass
    of the disconnection error it raises, [execute_command] closes the
    connection and raises that same exception. *)
Theorem execute_command_disconnect_cleans_up
    (env : Env) (args : list bytes) (timeout_ : Default (option seconds))
    (w : World) (t : Transport) (err : PyExc) :
  live (self w) = true ->
  transport (self w) = Some t ->
  execute_command_result env = Raises err ->
  isinstance err [SMTPServerDisconnected] = true ->
  let w' := after (execute_command env args timeout_) w in
  result (execute_command env args timeout_) w = Raised err
  /\ result is_connected w' = Returned false
  /\ transport (self w') = None
  /\ protocol (self w') = None
  /\ _connect_lock (self w') = false
  /\ configuration (self w') = configuration (self w)
  /\ trace w' =
       trace w
       ++ [EvExecuteCommand args match timeout_ with
                                 | given v => v
                                 | _default => timeout (self w)
                                 end]
       ++ (if connection_lost env then []
           else [EvTransportClose (transport_id t)]).
Proof.
  intros Hlive Ht Hres Herr.
  destruct (live_inv _ Hlive) as (id & p & Ht' & Hp).
  destruct w as [s ctxs tr]. destruct s as [p' t' h po ti u sa v cc ck tc cb l lk].
  simpl in Ht, Ht', Hp. rewrite Ht in Ht'. injection Ht' as ->. subst.
  unfold execute_command; destruct timeout_ as [|tm]; run; rewrite Hres; run.
  all: destruct (connection_lost env); run; rewrite Herr; run.
  all: destruct lk; run; rewrite <- ?app_assoc; repeat split.
Qed.

(** Any other exception of the protocol (a timeout, a malformed answer)
    goes to the caller as it is, and the connection is not torn down:
    nothing is closed, the lock and both references stay. *)
Theorem execute_command_error_passes_through
    (env : Env) (args : list bytes) (timeout_ : Default (option seconds))
    (w : World) (err : PyExc) :
  live (self w) = true ->
  execute_command_result env = Raises err ->
  isinstance err [SMTPServerDisconnected] = false ->
  let w' := after (execute_command env args timeout_) w in
  result (execute_command env args timeout_) w = Raised err
  /\ self w' = (if connection_lost env then lose_connection (self w) else self w)
  /\ contexts w' = contexts w
  /\ trace w' =
       trace w ++ [EvExecuteCommand args match timeout_ with
                                         | given v => v
                                         | _default => timeout (self w)
                                         end].
Proof.
  intros Hlive Hres Herr.
  destruct (live_inv _ Hlive) as (id & p & Ht' & Hp).
  destruct w as [s ctxs tr]. destruct s as [p' t' h po ti u sa v cc ck tc cb l lk].
  simpl in Ht', Hp. subst.
  unfold execute_command; destruct timeout_ as [|tm]; run; rewrite Hres; run.
  all: destruct (connection_lost env); run; rewrite Herr; run.
  all: repeat split.
Qed.

(** ** The scope guard, where it does close *)

(** Left with exactly [ConnectionError] or [SMTPTimeoutError], or with an
    instance that is no longer connected, the guard closes at once: it
    returns, [quit] is not run whatever it would do, the lock is free
    and both references are gone. *)
Theorem aexit_force_closes
    (self_quit : M SMTPResponse) (exc_type_ : option PyClass) (w : World) :
  class_in exc_type_ [ConnectionError; SMTPTimeoutError] = true
  \/ result is_connected w = Returned false ->
  let w' := after (__aexit__ self_quit exc_type_) w in
  result (__aexit__ self_quit exc_type_) w = Returned tt
  /\ transport (self w') = None
  /\ protocol (self w') = None
  /\ _connect_lock (self w') = false
  /\ configuration (self w') = configuration (self w)
  /\ trace w' = trace w ++ close_request (self w).
Proof.
  intros Hforce. unfold result, after. rewrite aexit_run.
  assert (Htest : class_in exc_type_ [ConnectionError; SMTPTimeoutError]
                  || negb match transport (self w) with
                          | Some t => negb (is_closing t)
                          | None => false
                          end = true).
  { destruct Hforce as [-> | Hconn]; [reflexivity|].
    unfold result, is_connected in Hconn. rewrite bind_getattr in Hconn.
    injection Hconn as ->. apply orb_true_r. }
  rewrite Htest, close_run. repeat split.
Qed.

(** On a connected instance and with any other exception type (or none)
    the guard runs [quit]: if [quit] returns, the guard returns and does
    nothing more; if [quit] raises a connection error, a response error
    or an SMTP timeout, subclasses included, the guard closes and lets
    nothing out; anything else [quit] raises gets out unchanged. *)
Theorem aexit_graceful_path
    (self_quit : M SMTPResponse) (exc_type_ : option PyClass) (w : World) :
  class_in exc_type_ [ConnectionError; SMTPTimeoutError] = false ->
  result is_connected w = Returned true ->
  (forall r w1, self_quit w = (Returned r, w1) ->
     __aexit__ self_quit exc_type_ w = (Returned tt, w1))
  /\ (forall err w1, self_quit w = (Raised err, w1) ->
        isinstance err [ConnectionError; SMTPResponseException; SMTPTimeoutError]
        = true ->
        let w' := after (__aexit__ self_quit exc_type_) w in
        result (__aexit__ self_quit exc_type_) w = Returned tt
        /\ transport (self w') = None
        /\ protocol (self w') = None
        /\ _connect_lock (self w') = false
        /\ trace w' = trace w1 ++ close_request (self w1))
  /\ (forall err w1, self_quit w = (Raised err, w1) ->
        isinstance err [ConnectionError; SMTPResponseException; SMTPTimeoutError]
        = false ->
        __aexit__ self_quit exc_type_ w = (Raised err, w1)).
Proof.
  intros Hclass Hconn.
  unfold result, is_connected in Hconn. rewrite bind_getattr in Hconn.
  injection Hconn as Hconn.
  split; [|split].
  - intros r w1 Hquit. now rewrite aexit_run, Hclass, Hconn, Hquit.
  - intros err w1 Hquit Herr. unfold result, after.
    rewrite aexit_run, Hclass, Hconn, Hquit, Herr. simpl. rewrite close_run.
    repeat split.
  - intros err w1 Hquit Herr.
    now rewrite aexit_run, Hclass, Hconn, Hquit, Herr.
Qed.

(** ** Transport information *)


(** ** The client's own host name *)

(** The host name is looked up at most once: the first access stores
    what it returns, and a later access gives the same name and changes
    nothing, whatever the system would answer by then. *)
Theorem source_address_is_cached (env1 env2 : Env) (w : World) :
  let name := match _source_address (self w) with
              | Some a => a
              | None => getfqdn env1
              end in
  let w1 := after (source_address env1) w in
  result (source_address env1) w = Returned name
  /\ _source_address (self w1) = Some name
  /\ source_address env2 w1 = (Returned name, w1).
Proof.
  destruct w as [s ctxs tr]. destruct s as [p' t' h po ti u sa v cc ck tc cb l lk].
  unfold source_address, result, after. destruct sa; repeat split.
Qed.

(** ** What the TLS context builder can raise *)

(** Building the context fails only when a file fails to load, and with
    the very error [ssl] gave for it: never on a supplied context, never
    on the switches (the hostname check is turned off before the
    verification mode is), and never by waiting. *)
Theorem get_tls_context_raises_only_load_errors (env : Env) (w : World) :
  result (_get_tls_context env) w <> Suspended
  /\ forall e, result (_get_tls_context env) w = Raised e ->
       tls_context (self w) = None
       /\ ((exists cafile,
              cert_bundle (self w) = Some cafile
              /\ load_verify_locations_result env cafile = Some e)
           \/ (exists certfile,
                 client_cert (self w) = Some certfile
                 /\ load_cert_chain_result env certfile (client_key (self w))
                    = Some e)).
Proof.
  destruct w as [s ctxs tr]. destruct s as [p t h po ti u sa v cc ck tc cb l lk].
  unfold result, _get_tls_context.
  destruct tc as [ctx|].
  - split; [discriminate|]. intros e He. discriminate He.
  - destruct v, cb as [cafile|], cc as [certfile|]; run_tls;
      (split; [discriminate|]); intros e He; try discriminate He;
      injection He as <-; (split; [reflexivity|]); eauto.
Qed.

(** ** Failures while the transport opens *)

Lemma bind_raises {A B} (m : M A) (k : A -> M B) w e w' :
  m w = (Raised e, w') -> bind m k w = (Raised e, w').
Proof. intros H. unfold bind. now rewrite H. Qed.

Lemma create_connection_to_open env w host p ctx w1 :
  hostname (self w) = Some host ->
  port (self w) = Some p ->
  tls_stage env w = (Returned ctx, w1) ->
  _create_connection env w =
  (transport_ <- open_stage env host p ctx ;;
   modify (set_protocol (Some (mkProtocol (loop (self w))))) ;;
   modify (set_transport (Some transport_)) ;;
   greeting_stage env) w1.
Proof.
  intros Hhost Hport Htls. rewrite create_connection_stages.
  rewrite bind_getattr, Hhost, bind_getattr, Hport, bind_getattr.
  now rewrite (bind_returned _ _ _ _ _ Htls).
Qed.

(** A connection that cannot be opened: an [OSError] of any kind (a
    refusal among them) is reported as the connect error, naming host,
    port and the cause; a timeout of the wait as the connect-timeout
    error, naming host and port.  In both cases [close] has run first:
    no transport, no protocol, the lock free, the configuration as it
    was.  The [OSError] clause comes first and wins when both apply. *)
Theorem open_failure_is_reported
    (env : Env) (w : World) (host : string) (p : Z) (err : PyExc) :
  hostname (self w) = Some host ->
  port (self w) = Some p ->
  (use_tls (self w) = false
   \/ exists ctx, result (_get_tls_context env) w = Returned ctx) ->
  create_connection_result env = Raises err ->
  let w' := after (_create_connection env) w in
  let outcome := result (_create_connection env) w in
  let closed_first :=
    transport (self w') = None
    /\ protocol (self w') = None
    /\ _connect_lock (self w') = false
    /\ configuration (self w') = configuration (self w) in
  (isinstance err [ConnectionRefusedError; OSError] = true ->
   outcome = Raised (mkExc SMTPConnectError
                       ("Error connecting to " +:+ host +:+ " on port "
                        +:+ NilZero.string_of_int (Z.to_int p) +:+ ": "
                        +:+ exc_str err))
   /\ closed_first)
  /\ (isinstance err [ConnectionRefusedError; OSError] = false ->
      isinstance err [asyncio_TimeoutError] = true ->
      outcome = Raised (mkExc SMTPConnectTimeoutError
                          ("Timed out connecting to " +:+ host +:+ " on port "
                           +:+ NilZero.string_of_int (Z.to_int p)))
      /\ closed_first).
Proof.
  intros Hhost Hport Htls Hopen w' outcome closed_first.
  destruct (tls_stage_returns env w Htls) as (ctx & w1 & Hstage).
  assert (Hself : self w1 = self w).
  { generalize (tls_stage_same_self env w). unfold same_self, after.
    now rewrite Hstage. }
  assert (Hrun := create_connection_to_open env w host p ctx w1
                    Hhost Hport Hstage).
  assert (Hfail := open_stage_raises env host p ctx w1 err Hopen).
  cbv zeta in Hfail. rewrite Hself, Hhost, Hport in Hfail.
  subst closed_first outcome w'. unfold result, after.
  split.
  - intros Hos. rewrite Hos in Hfail.
    rewrite Hrun, (bind_raises _ _ _ _ _ Hfail). simpl. repeat split.
  - intros Hos Htimeout. rewrite Hos, Htimeout in Hfail.
    rewrite Hrun, (bind_raises _ _ _ _ _ Hfail). simpl. repeat split.
Qed.

(** An exception that the handlers do not name is neither wrapped nor
    cleaned up after.  Raised while the transport opens, it gets out with
    the instance as it was; raised while the greeting is awaited, it
    gets out with the new transport and protocol stored. *)
Theorem unnamed_errors_pass_through
    (env : Env) (w : World) (host : string) (p : Z) (err : PyExc) :
  hostname (self w) = Some host ->
  port (self w) = Some p ->
  (use_tls (self w) = false
   \/ exists ctx, result (_get_tls_context env) w = Returned ctx) ->
  let w' := after (_create_connection env) w in
  let outcome := result (_create_connection env) w in
  (create_connection_result env = Raises err ->
   isinstance err [ConnectionRefusedError; OSError] = false ->
   isinstance err [asyncio_TimeoutError] = false ->
   outcome = Raised err /\ self w' = self w)
  /\ (forall t,
        create_connection_result env = Returns t ->
        read_response_result env = Raises err ->
        isinstance err [asyncio_TimeoutError] = false ->
        outcome = Raised err
        /\ protocol (self w') = Some (mkProtocol (loop (self w)))
        /\ transport (self w') =
             Some (if connection_lost env
                   then mkTransport (transport_id t) true else t)
        /\ _connect_lock (self w') = _connect_lock (self w)
        /\ configuration (self w') = configuration (self w)).
Proof.
  intros Hhost Hport Htls w' outcome.
  destruct (tls_stage_returns env w Htls) as (ctx & w1 & Hstage).
  assert (Hself : self w1 = self w).
  { generalize (tls_stage_same_self env w). unfold same_self, after.
    now rewrite Hstage. }
  subst outcome w'. unfold result, after. split.
  - intros Hopen Hos Htimeout.
    assert (Hfail := open_stage_raises env host p ctx w1 err Hopen).
    cbv zeta in Hfail. rewrite Hos, Htimeout in Hfail.
    rewrite (create_connection_to_open env w host p ctx w1 Hhost Hport Hstage).
    rewrite (bind_raises _ _ _ _ _ Hfail). simpl. now split.
  - intros t Hopen Hread Htimeout.
    rewrite (create_connection_run env w host p ctx w1 t
               Hhost Hport Hstage Hopen).
    rewrite greeting_stage_run. cbv zeta. rewrite Hread, Htimeout. simpl.
    destruct t as [id closing].
    destruct (connection_lost env); repeat split.
Qed.

(** ** The connection attempt and the TLS context it carries *)

Lemma get_tls_context_returned env w r w1 :
  _get_tls_context env w = (Returned r, w1) ->
  match tls_context (self w) with
  | Some supplied => r = supplied /\ w1 = w
  | None => r = length (contexts w)
            /\ exists c, contexts w1 = contexts w ++ [c]
  end.
Proof.
  destruct w as [s ctxs tr]. destruct s as [p t h po ti u sa v cc ck tc cb l lk].
  unfold _get_tls_context. destruct tc as [ctx|].
  - intros [= <- <-]. now split.
  - destruct v, cb as [cafile|], cc as [certfile|]; run_tls;
      intros He; try discriminate He; injection He as <- <-;
      (split; [reflexivity|]); eexists; reflexivity.
Qed.

Lemma get_tls_context_loads env w :
  (forall cafile, load_verify_locations_result env cafile = None) ->
  (forall certfile keyfile, load_cert_chain_result env certfile keyfile = None) ->
  exists ctx, result (_get_tls_context env) w = Returned ctx.
Proof.
  intros Hca Hcert.
  destruct w as [s ctxs tr]. destruct s as [p t h po ti u sa v cc ck tc cb l lk].
  unfold result, _get_tls_context. destruct tc as [ctx|]; [eexists; reflexivity|].
  destruct v, cb as [cafile|], cc as [certfile|]; run_tls;
    try (eexists; reflexivity);
    repeat match goal with
           | H : load_verify_locations_result _ _ = Some _ |- _ =>
               rewrite Hca in H; discriminate H
           | H : load_cert_chain_result _ _ _ = Some _ |- _ =>
               rewrite Hcert in H; discriminate H
           end.
Qed.

Lemma greeting_stage_contexts env w :
  contexts (after (greeting_stage env) w) = contexts w.
Proof.
  unfold after. rewrite greeting_stage_run. cbv zeta.
  destruct (read_response_result env) as [r|err];
    [destruct (code r =? SMTPStatus.ready)
    |destruct (isinstance err [asyncio_TimeoutError])]; reflexivity.
Qed.

Lemma create_connection_after_tls env w host p ctx w1 :
  hostname (self w) = Some host ->
  port (self w) = Some p ->
  tls_stage env w = (Returned ctx, w1) ->
  let w' := after (_create_connection env) w in
  contexts w' = contexts w1
  /\ exists evs,
       trace w' = trace w1
                  ++ EvCreateConnection host p ctx (timeout (self w)) :: evs
       /\ Forall (fun ev => is_attempt ev = false) evs.
Proof.
  intros Hhost Hport Htls w'. subst w'.
  assert (Hself : self w1 = self w).
  { generalize (tls_stage_same_self env w). unfold same_self, after.
    now rewrite Htls. }
  unfold after.
  destruct (create_connection_result env) as [t|err] eqn:Hopen.
  - rewrite (create_connection_run env w host p ctx w1 t Hhost Hport Htls Hopen).
    match goal with
    | |- context [greeting_stage env ?W] =>
        destruct (greeting_stage_quiet env W) as (e2 & Ht2 & Hq2);
        assert (Hc := greeting_stage_contexts env W)
    end.
    unfold after in Ht2, Hc. cbn [self contexts trace] in Ht2, Hc.
    split; [exact Hc|]. exists e2. split; [|exact Hq2].
    rewrite Ht2, <- app_assoc. reflexivity.
  - rewrite (create_connection_to_open env w host p ctx w1 Hhost Hport Htls).
    assert (Hfail := open_stage_raises env host p ctx w1 err Hopen).
    cbv zeta in Hfail. rewrite Hself in Hfail.
    assert (Hclose : Forall (fun ev => is_attempt ev = false)
                            (close_request (self w))).
    { unfold close_request.
      destruct (transport (self w)) as [[id [|]]|]; repeat constructor. }
    destruct (isinstance err [ConnectionRefusedError; OSError]);
      [|destruct (isinstance err [asyncio_TimeoutError])];
      rewrite (bind_raises _ _ _ _ _ Hfail); cbn [fst snd contexts trace];
      (split; [reflexivity|]).
    + exists (close_request (self w)). split; [reflexivity | exact Hclose].
    + exists (close_request (self w)). split; [reflexivity | exact Hclose].
    + exists []. split; [reflexivity | constructor].
Qed.

(** Past its two checks, [_create_connection] makes exactly one
    connection attempt, to the stored host and port under the stored
    timeout, and nothing it does afterwards is another attempt.  The
    attempt carries no TLS context without [use_tls]; with it, the
    supplied context if there is one, and otherwise the context just
    built.  Only in that last case does a context come into being. *)
Theorem one_attempt_with_the_right_context
    (env : Env) (w : World) (host : string) (p : Z) :
  hostname (self w) = Some host ->
  port (self w) = Some p ->
  (use_tls (self w) = false
   \/ exists ctx, result (_get_tls_context env) w = Returned ctx) ->
  let w' := after (_create_connection env) w in
  let ssl := if use_tls (self w)
             then match tls_context (self w) with
                  | Some supplied => Some supplied
                  | None => Some (length (contexts w))
                  end
             else None in
  (exists before after_,
     trace w' = trace w ++ before
                ++ EvCreateConnection host p ssl (timeout (self w)) :: after_
     /\ Forall (fun ev => is_attempt ev = false) before
     /\ Forall (fun ev => is_attempt ev = false) after_)
  /\ (use_tls (self w) = false \/ tls_context (self w) <> None ->
      contexts w' = contexts w)
  /\ (use_tls (self w) = true -> tls_context (self w) = None ->
      exists c, contexts w' = contexts w ++ [c]).
Proof.
  intros Hhost Hport Htls w' ssl.
  destruct (tls_stage_returns env w Htls) as (ctx & w1 & Hstage).
  destruct (create_connection_after_tls env w host p ctx w1 Hhost Hport Hstage)
    as (Hctxs & evs & Htrace & Hevs).
  fold w' in Hctxs, Htrace.
  destruct (tls_stage_quiet env w) as (e1 & Ht1 & Hq1).
  unfold after in Ht1. rewrite Hstage in Ht1. cbn [snd] in Ht1.
  assert (Hshape :
    ctx = ssl
    /\ (use_tls (self w) = false \/ tls_context (self w) <> None ->
        contexts w1 = contexts w)
    /\ (use_tls (self w) = true -> tls_context (self w) = None ->
        exists c, contexts w1 = contexts w ++ [c])).
  { subst ssl. unfold tls_stage in Hstage. rewrite bind_getattr in Hstage.
    destruct (use_tls (self w)).
    - unfold bind in Hstage.
      destruct (_get_tls_context env w) as [[r|e|] w2] eqn:Hget;
        try discriminate Hstage.
      injection Hstage as <- <-.
      apply get_tls_context_returned in Hget.
      destruct (tls_context (self w)) as [supplied|].
      + destruct Hget as [-> ->]. repeat split; try reflexivity.
        intros _ H. discriminate H.
      + destruct Hget as [-> Hc]. repeat split.
        * intros [H|H]; [discriminate H | now contradiction H].
        * intros _ _. exact Hc.
    - injection Hstage as <- <-. repeat split. intros H. discriminate H. }
  destruct Hshape as (-> & Hsame & Hnew).
  split; [|split].
  - exists e1, evs. repeat split; try assumption.
    rewrite Htrace, Ht1, <- app_assoc. reflexivity.
  - intros H. rewrite Hctxs. now apply Hsame.
  - intros H1 H2. rewrite Hctxs. now apply Hnew.
Qed.

(** ** A connect that succeeds *)

Lemma overrides_under_lock (a : ConnectArgs) (s : SMTPConnection) :
  configuration (overrides a (set_connect_lock true s))
  = configuration (overrides a s).
Proof.
  unfold configuration.
  rewrite !overrides_hostname, !overrides_port, !overrides_timeout,
    !overrides_use_tls, !overrides_source_address, !overrides_validate_certs,
    !overrides_client_cert, !overrides_client_key, !overrides_tls_context,
    !overrides_cert_bundle, !overrides_loop.
  reflexivity.
Qed.

Lemma overrides_connect_lock' (a : ConnectArgs) (s : SMTPConnection) :
  _connect_lock (overrides a s) = _connect_lock s.
Proof. unfold overrides. peel. reflexivity. Qed.

Lemma overrides_port_set (a : ConnectArgs) (s : SMTPConnection) :
  exists p, port (overrides a s) = Some p.
Proof.
  rewrite overrides_port.
  destruct (arg_port a); [eauto|]. destruct (port s); eauto.
Qed.

Lemma connect_returns env a w host t r :
  _connect_lock (self w) = false ->
  hostname (overrides a (self w)) = Some host ->
  (tls_context (overrides a (self w)) = None
   \/ client_cert (overrides a (self w)) = None) ->
  (use_tls (overrides a (self w)) = false
   \/ ((forall cafile, load_verify_locations_result env cafile = None)
       /\ (forall certfile keyfile,
             load_cert_chain_result env certfile keyfile = None))) ->
  create_connection_result env = Returns t ->
  read_response_result env = Returns r ->
  code r = SMTPStatus.ready ->
  let s0 := overrides a (set_connect_lock true (self w)) in
  let stored := set_transport (Some t)
                  (set_protocol (Some (mkProtocol (loop s0))) s0) in
  exists p ctx w1,
    port s0 = Some p
    /\ tls_stage env (mkWorld s0 (contexts w) (trace w)) = (Returned ctx, w1)
    /\ connect env a w =
       (Returned r,
        mkWorld (if connection_lost env then lose_connection stored else stored)
                (contexts w1)
                (trace w1 ++ [EvCreateConnection host p ctx (timeout s0);
                              EvReadResponse (timeout s0)])).
Proof.
  intros Hfree Hhost Hexcl Htls Hopen Hread Hcode s0 stored.
  assert (Hcfg := overrides_under_lock a (self w)). fold s0 in Hcfg.
  unfold configuration in Hcfg.
  injection Hcfg as Hh Hp Hti Hu Hsa Hv Hcc Hck Htc Hcb Hl.
  rewrite <- Hh in Hhost. rewrite <- Htc, <- Hcc in Hexcl. rewrite <- Hu in Htls.
  destruct (overrides_port_set a (set_connect_lock true (self w))) as [p Hport].
  fold s0 in Hport.
  set (W0 := mkWorld s0 (contexts w) (trace w)).
  assert (Hstage_ok : use_tls (self W0) = false
                      \/ exists ctx, result (_get_tls_context env) W0 = Returned ctx).
  { destruct Htls as [Hoff | [Hca Hcert]]; [now left | right].
    now apply get_tls_context_loads. }
  destruct (tls_stage_returns env W0 Hstage_ok) as (ctx & w1 & Hstage).
  exists p, ctx, w1. split; [exact Hport|]. split; [exact Hstage|].
  rewrite connect_run by exact Hfree. fold s0. fold W0.
  unfold connect_tail. rewrite !bind_getattr.
  assert (Hcreate :
    _create_connection env W0 =
    (Returned r,
     mkWorld (if connection_lost env then lose_connection stored else stored)
             (contexts w1)
             (trace w1 ++ [EvCreateConnection host p ctx (timeout s0);
                           EvReadResponse (timeout s0)]))).
  { rewrite (create_connection_run env W0 host p ctx w1 t
               Hhost Hport Hstage Hopen).
    rewrite greeting_stage_run. cbv zeta. rewrite Hread, Hcode.
    cbn [self contexts trace]. rewrite <- app_assoc. reflexivity. }
  change (self W0) with s0.
  destruct Hexcl as [Hnone | Hnone]; rewrite Hnone.
  - now rewrite (bind_returned _ _ _ _ _ Hcreate).
  - destruct (tls_context s0); now rewrite (bind_returned _ _ _ _ _ Hcreate).
Qed.

(** A [connect] that gets the lock, passes the two checks, loads its
    certificates (or needs none), has its transport opened and is
    greeted with 220, returns that greeting.  It leaves the lock held,
    the protocol bound to the stored loop and the transport stored; it
    has made one attempt, to the stored host and port, and read one
    response; and the instance is connected unless the transport was
    already closing or the peer hung up. *)
Theorem connect_succeeds
    (env : Env) (a : ConnectArgs) (w : World)
    (host : string) (t : Transport) (r : SMTPResponse) :
  _connect_lock (self w) = false ->
  hostname (overrides a (self w)) = Some host ->
  (tls_context (overrides a (self w)) = None
   \/ client_cert (overrides a (self w)) = None) ->
  (use_tls (overrides a (self w)) = false
   \/ ((forall cafile, load_verify_locations_result env cafile = None)
       /\ (forall certfile keyfile,
             load_cert_chain_result env certfile keyfile = None))) ->
  create_connection_result env = Returns t ->
  read_response_result env = Returns r ->
  code r = SMTPStatus.ready ->
  let w' := after (connect env a) w in
  result (connect env a) w = Returned r
  /\ _connect_lock (self w') = true
  /\ protocol (self w') = Some (mkProtocol (loop (overrides a (self w))))
  /\ transport (self w') =
       Some (if connection_lost env then mkTransport (transport_id t) true else t)
  /\ result is_connected w' =
       Returned (negb (is_closing t || connection_lost env))
  /\ exists p ctx before,
       port (self w') = Some p
       /\ trace w' =
            trace w ++ before
            ++ [EvCreateConnection host p ctx (timeout (self w'));
                EvReadResponse (timeout (self w'))]
       /\ Forall (fun ev => is_attempt ev = false) before.
Proof.
  intros Hfree Hhost Hexcl Htls Hopen Hread Hcode w'.
  destruct (connect_returns env a w host t r
              Hfree Hhost Hexcl Htls Hopen Hread Hcode)
    as (p & ctx & w1 & Hport & Hstage & Hrun).
  cbv zeta in Hrun, Hstage, Hport.
  assert (Hcfg := overrides_under_lock a (self w)).
  unfold configuration in Hcfg.
  injection Hcfg as Hh Hp Hti Hu Hsa Hv Hcc Hck Htc Hcb Hl.
  assert (Hlock := overrides_connect_lock' a (set_connect_lock true (self w))).
  destruct (tls_stage_quiet env
              (mkWorld (overrides a (set_connect_lock true (self w)))
                       (contexts w) (trace w))) as (e1 & Ht1 & Hq1).
  unfold after in Ht1. rewrite Hstage in Ht1. cbn [snd trace] in Ht1.
  subst w'. unfold result, after. rewrite Hrun. cbn [fst snd self trace].
  destruct t as [id closing].
  destruct (connection_lost env); cbn; rewrite ?Hl, ?Hlock, ?orb_true_r,
    ?orb_false_r; repeat split;
    exists p, ctx, e1; rewrite Hport, Ht1, <- app_assoc; repeat split;
    assumption.
Qed.

(** ** One connection at a time *)

Lemma create_connection_returned_lock env w r w' :
  _create_connection env w = (Returned r, w') ->
  _connect_lock (self w') = _connect_lock (self w)
  /\ exists t, transport (self w') = Some t.
Proof.
  rewrite create_connection_stages. rewrite bind_getattr.
  destruct (hostname (self w)) as [host|] eqn:Hhost; [|discriminate].
  rewrite bind_getattr.
  destruct (port (self w)) as [p|] eqn:Hport; [|discriminate].
  rewrite bind_getattr.
  assert (Hself := tls_stage_same_self env w). unfold same_self, after in Hself.
  unfold bind at 1. destruct (tls_stage env w) as [[ctx|e|] w1]; try discriminate.
  cbn [snd] in Hself. unfold bind at 1.
  destruct (create_connection_result env) as [t|err] eqn:Hopen.
  - rewrite (open_stage_returns _ _ _ _ _ _ Hopen). rewrite !bind_modify.
    rewrite greeting_stage_run. cbv zeta. cbn [self contexts trace].
    destruct (read_response_result env) as [r'|err].
    + destruct (code r' =? SMTPStatus.ready); [|discriminate].
      intros [= _ <-]. cbn [self]. rewrite Hself. destruct t as [id closing].
      destruct (connection_lost env); split; try reflexivity; eexists; reflexivity.
    + destruct (isinstance err [asyncio_TimeoutError]); discriminate.
  - rewrite (open_stage_raises _ _ _ _ _ _ Hopen). cbv zeta.
    destruct (isinstance err [ConnectionRefusedError; OSError]);
      [|destruct (isinstance err [asyncio_TimeoutError])]; discriminate.
Qed.

Lemma get_tls_context_never_waits env w :
  fst (_get_tls_context env w) <> Suspended.
Proof.
  destruct w as [s ctxs tr]. destruct s as [p t h po ti u sa v cc ck tc cb l lk].
  unfold _get_tls_context. destruct tc as [ctx|]; [discriminate|].
  destruct v, cb as [cafile|], cc as [certfile|]; run_tls; discriminate.
Qed.

Lemma create_connection_never_waits env w :
  fst (_create_connection env w) <> Suspended.
Proof.
  rewrite create_connection_stages. rewrite bind_getattr.
  destruct (hostname (self w)) as [host|]; [|discriminate].
  rewrite bind_getattr.
  destruct (port (self w)) as [p|]; [|discriminate].
  rewrite bind_getattr. unfold bind at 1.
  assert (Htls : fst (tls_stage env w) <> Suspended).
  { unfold tls_stage. rewrite bind_getattr.
    destruct (use_tls (self w)); [|discriminate].
    assert (H := get_tls_context_never_waits env w). unfold bind.
    destruct (_get_tls_context env w) as [[r|e|] w1]; try discriminate.
    now contradiction H. }
  destruct (tls_stage env w) as [[ctx|e|] w1]; try discriminate;
    [|now contradiction Htls].
  unfold bind at 1.
  destruct (create_connection_result env) as [t|err] eqn:Hopen.
  - rewrite (open_stage_returns _ _ _ _ _ _ Hopen). rewrite !bind_modify.
    rewrite greeting_stage_run. cbv zeta.
    destruct (read_response_result env) as [r'|err];
      [destruct (code r' =? SMTPStatus.ready)
      |destruct (isinstance err [asyncio_TimeoutError])]; discriminate.
  - rewrite (open_stage_raises _ _ _ _ _ _ Hopen). cbv zeta.
    destruct (isinstance err [ConnectionRefusedError; OSError]);
      [|destruct (isinstance err [asyncio_TimeoutError])]; discriminate.
Qed.

Lemma connect_tail_never_waits env w :
  fst (connect_tail env w) <> Suspended.
Proof.
  unfold connect_tail. rewrite !bind_getattr.
  assert (Hns := create_connection_never_waits env w).
  destruct (tls_context (self w)), (client_cert (self w));
    try discriminate; unfold bind;
    destruct (_create_connection env w) as [[r2|e2|] w2];
    try discriminate; now contradiction Hns.
Qed.

(** After a [connect] that returned, the instance holds a transport and
    the lock, so a further [connect], whatever its arguments, waits and
    changes nothing: no second transport, no argument stored.  Once
    [close] has run, the lock is free again. *)
Theorem connected_instance_makes_connect_wait
    (env : Env) (a : ConnectArgs) (w w' : World) (r : SMTPResponse) :
  connect env a w = (Returned r, w') ->
  _connect_lock (self w') = true
  /\ (exists t, transport (self w') = Some t)
  /\ (forall env2 a2, connect env2 a2 w' = (Suspended, w'))
  /\ (forall env2 a2,
        result (connect env2 a2) (after close w') <> Suspended).
Proof.
  intros Hconnect.
  assert (Hheld : _connect_lock (self w') = true
                  /\ exists t, transport (self w') = Some t).
  { destruct (_connect_lock (self w)) eqn:Hlock.
    - rewrite connect_suspended in Hconnect by exact Hlock. discriminate.
    - rewrite connect_run in Hconnect by exact Hlock.
      apply connect_tail_returned in Hconnect.
      apply create_connection_returned_lock in Hconnect.
      cbn [self] in Hconnect. rewrite overrides_connect_lock' in Hconnect.
      exact Hconnect. }
  destruct Hheld as [Hheld Ht]. repeat split; try assumption.
  - intros env2 a2. now apply connect_suspended.
  - intros env2 a2. unfold result, after. rewrite close_run.
    rewrite connect_run by reflexivity. apply connect_tail_never_waits.
Qed.

(** ** Options are saved for the next connect *)

Lemma connect_attempts env a w :
  _connect_lock (self w) = false ->
  exists evs,
    trace (after (connect env a) w) = trace w ++ evs
    /\ forall h p ctx t, In (EvCreateConnection h p ctx t) evs ->
         hostname (overrides a (self w)) = Some h
         /\ port (overrides a (self w)) = Some p
         /\ timeout (overrides a (self w)) = t.
Proof.
  intros Hfree. unfold after. rewrite connect_run by exact Hfree.
  match goal with
  | |- context [connect_tail env ?W] =>
      destruct (connect_tail_attempts env W) as (evs & Htrace & Hevs)
  end.
  unfold after in Htrace. cbn [self trace] in Htrace, Hevs.
  exists evs. split; [exact Htrace|].
  intros h p ctx t Hin. rewrite List.Forall_forall in Hevs.
  specialize (Hevs _ Hin h p ctx t eq_refl).
  assert (Hcfg := overrides_under_lock a (self w)). unfold configuration in Hcfg.
  injection Hcfg as Hh Hp Hti _ _ _ _ _ _ _ _.
  now rewrite <- Hh, <- Hp, <- Hti.
Qed.

Lemma overrides_no_arguments (s : SMTPConnection) :
  port s <> None ->
  configuration (overrides no_arguments s) = configuration s.
Proof.
  intros Hport. unfold configuration.
  rewrite overrides_hostname, overrides_port, overrides_timeout,
    overrides_use_tls, overrides_source_address, overrides_validate_certs,
    overrides_client_cert, overrides_client_key, overrides_tls_context,
    overrides_cert_bundle, overrides_loop.
  cbn. destruct (port s); [reflexivity | now contradiction Hport].
Qed.

(** What a [connect] stored is what the next one uses: after any
    [connect] that got the lock, however it ended, and a [close], a
    [connect] without arguments leaves the stored configuration as it is
    and makes its attempt at the host and port stored by the first. *)
Theorem reconnect_uses_saved_options
    (env1 env2 : Env) (a : ConnectArgs) (w : World) :
  _connect_lock (self w) = false ->
  let w1 := after (connect env1 a) w in
  let w2 := after close w1 in
  let w3 := after (connect env2 no_arguments) w2 in
  result (connect env2 no_arguments) w2 <> Suspended
  /\ configuration (self w3) = configuration (self w1)
  /\ exists evs,
       trace w3 = trace w2 ++ evs
       /\ forall h p ctx t, In (EvCreateConnection h p ctx t) evs ->
            hostname (self w1) = Some h /\ port (self w1) = Some p
            /\ timeout (self w1) = t.
Proof.
  intros Hfree w1 w2 w3.
  assert (Hcfg1 := connect_configuration env1 a w Hfree). fold w1 in Hcfg1.
  assert (Hw2 : self w2 = closed (self w1)
                /\ _connect_lock (self w2) = false).
  { subst w2. unfold after. rewrite close_run. split; reflexivity. }
  destruct Hw2 as [Hself2 Hfree2].
  assert (Hport1 : port (self w1) <> None).
  { assert (H := f_equal cfg_port Hcfg1). cbn in H. rewrite H.
    destruct (overrides_port_set a (self w)) as [p ->]. discriminate. }
  assert (Hsaved : configuration (overrides no_arguments (self w2))
                   = configuration (self w1)).
  { rewrite overrides_no_arguments; rewrite Hself2; [reflexivity | exact Hport1]. }
  split; [|split].
  - unfold result. rewrite connect_run by exact Hfree2.
    apply connect_tail_never_waits.
  - subst w3. rewrite (connect_configuration env2 no_arguments w2 Hfree2).
    exact Hsaved.
  - destruct (connect_attempts env2 no_arguments w2 Hfree2)
      as (evs & Htrace & Hevs).
    exists evs. split; [exact Htrace|].
    intros h p ctx t Hin. specialize (Hevs h p ctx t Hin).
    unfold configuration in Hsaved.
    injection Hsaved as Hh Hp Hti _ _ _ _ _ _ _ _.
    now rewrite <- Hh, <- Hp, <- Hti.
Qed.

(** The default port is chosen once.  After any [connect] that got the
    lock the port is set, and a later [connect] that passes no port
    keeps it, even when that call switches [use_tls]. *)
Theorem resolved_port_persists
    (env1 env2 : Env) (a1 a2 : ConnectArgs) (w : World) :
  _connect_lock (self w) = false ->
  arg_port a2 = None ->
  let w1 := after (connect env1 a1) w in
  let w3 := after (connect env2 a2) (after close w1) in
  exists p,
    port (self w1) = Some p
    /\ port (self w3) = Some p
    /\ (arg_port a1 = None -> port (self w) = None ->
        p = if match arg_use_tls a1 with
               | Some v => v
               | None => use_tls (self w)
               end
            then SMTP_TLS_PORT else SMTP_PORT).
Proof.
  intros Hfree Hnone w1 w3.
  assert (Hcfg1 := f_equal cfg_port (connect_configuration env1 a1 w Hfree)).
  fold w1 in Hcfg1. cbn in Hcfg1.
  assert (Hw2 : self (after close w1) = closed (self w1)
                /\ _connect_lock (self (after close w1)) = false).
  { unfold after. rewrite close_run. split; reflexivity. }
  destruct Hw2 as [Hself2 Hfree2].
  assert (Hcfg3 := f_equal cfg_port
                     (connect_configuration env2 a2 (after close w1) Hfree2)).
  fold w3 in Hcfg3. cbn in Hcfg3.
  rewrite overrides_port, Hnone, Hself2 in Hcfg3. cbn in Hcfg3.
  destruct (overrides_port_set a1 (self w)) as [p Hp].
  exists p. rewrite Hcfg1, Hp. split; [reflexivity|].
  rewrite Hcfg1, Hp in Hcfg3. split; [exact Hcfg3|].
  intros Ha1 Hw. rewrite overrides_port, Ha1, Hw, overrides_use_tls in Hp.
  now injection Hp as <-.
Qed.

(** The stored host name and [connect]: a name passed to [connect] is
    the one given out afterwards; [None] passed on purpose forgets the
    stored name, so the next access looks it up anew; nothing passed
    keeps what was stored. *)
Theorem source_address_after_connect
    (env env' : Env) (a : ConnectArgs) (w : World) :
  _connect_lock (self w) = false ->
  result (source_address env') (after (connect env a) w) =
  Returned match arg_source_address a with
           | given (Some name) => name
           | given None => getfqdn env'
           | _default =>
               match _source_address (self w) with
               | Some name => name
               | None => getfqdn env'
               end
           end.
Proof.
  intros Hfree.
  assert (Hsa := f_equal cfg_source_address
                   (connect_configuration env a w Hfree)).
  cbn in Hsa. rewrite overrides_source_address in Hsa.
  unfold result, source_address. rewrite bind_getattr, Hsa.
  destruct (arg_source_address a) as [|[name|]]; try reflexivity.
  now destruct (_source_address (self w)).
Qed.

(** ** The scope, entered and left *)

(** Entering a connected instance does nothing at all. *)
Lemma aenter_connected env w :
  result is_connected w = Returned true -> __aenter__ env w = (Returned tt, w).
Proof.
  intros Hconn. unfold result, is_connected in Hconn.
  rewrite bind_getattr in Hconn. injection Hconn as Hconn.
  unfold __aenter__, is_connected, bind at 1. rewrite bind_getattr.
  unfold ret at 1. now rewrite Hconn.
Qed.

Lemma aenter_not_connected env w :
  result is_connected w = Returned false ->
  __aenter__ env w = (connect env no_arguments ;; ret tt) w.
Proof.
  intros Hconn. unfold result, is_connected in Hconn.
  rewrite bind_getattr in Hconn. injection Hconn as Hconn.
  unfold __aenter__, is_connected, bind at 1. rewrite bind_getattr.
  unfold ret at 1. now rewrite Hconn.
Qed.

(** A scope on a closed instance, with a server that accepts and greets
    with 220: entering connects; entering again while connected changes
    nothing; leaving on a [ConnectionError] closes the transport that was
    opened and frees the lock; and the instance can then be entered
    again, which opens the next transport. *)
Theorem scope_round_trip
    (env1 env2 : Env) (self_quit : M SMTPResponse) (w : World)
    (host : string) (t1 t2 : Transport) (r1 r2 : SMTPResponse) :
  transport (self w) = None ->
  _connect_lock (self w) = false ->
  hostname (self w) = Some host ->
  tls_context (self w) = None \/ client_cert (self w) = None ->
  use_tls (self w) = false ->
  create_connection_result env1 = Returns t1 ->
  read_response_result env1 = Returns r1 -> code r1 = SMTPStatus.ready ->
  is_closing t1 = false -> connection_lost env1 = false ->
  create_connection_result env2 = Returns t2 ->
  read_response_result env2 = Returns r2 -> code r2 = SMTPStatus.ready ->
  is_closing t2 = false -> connection_lost env2 = false ->
  let w1 := after (__aenter__ env1) w in
  let w2 := after (__aexit__ self_quit (Some ConnectionError)) w1 in
  let w3 := after (__aenter__ env2) w2 in
  result (__aenter__ env1) w = Returned tt
  /\ transport (self w1) = Some t1
  /\ __aenter__ env2 w1 = (Returned tt, w1)
  /\ result (__aexit__ self_quit (Some ConnectionError)) w1 = Returned tt
  /\ transport (self w2) = None
  /\ _connect_lock (self w2) = false
  /\ In (EvTransportClose (transport_id t1)) (trace w2)
  /\ result (__aenter__ env2) w2 = Returned tt
  /\ transport (self w3) = Some t2
  /\ configuration (self w3) = configuration (self w1).
Proof.
  intros Htr Hfree Hhost Hexcl Htls Ho1 Hr1 Hc1 Hcl1 Hl1 Ho2 Hr2 Hc2 Hcl2 Hl2
         w1 w2 w3.
  (* entering *)
  assert (Hnc : result is_connected w = Returned false).
  { unfold result, is_connected. rewrite bind_getattr, Htr. reflexivity. }
  assert (Hport0 := overrides_port_set no_arguments (self w)).
  assert (Hh0 : hostname (overrides no_arguments (self w)) = Some host).
  { now rewrite overrides_hostname. }
  assert (Hx0 : tls_context (overrides no_arguments (self w)) = None
                \/ client_cert (overrides no_arguments (self w)) = None).
  { now rewrite overrides_tls_context, overrides_client_cert. }
  assert (Hu0 : use_tls (overrides no_arguments (self w)) = false).
  { now rewrite overrides_use_tls. }
  destruct (connect_returns env1 no_arguments w host t1 r1
              Hfree Hh0 Hx0 (or_introl Hu0) Ho1 Hr1 Hc1)
    as (p1 & ctx1 & w1' & Hp1 & Hstage1 & Hrun1).
  cbv zeta in Hrun1. rewrite Hl1 in Hrun1.
  assert (Henter1 : __aenter__ env1 w =
                    (Returned tt, snd (connect env1 no_arguments w))).
  { rewrite (aenter_not_connected env1 w Hnc).
    unfold bind. rewrite Hrun1. reflexivity. }
  assert (Hw1 : w1 = snd (connect env1 no_arguments w)).
  { subst w1. unfold after. now rewrite Henter1. }
  assert (Hself1 : self w1 =
    set_transport (Some t1)
      (set_protocol
         (Some (mkProtocol
                  (loop (overrides no_arguments (set_connect_lock true (self w))))))
         (overrides no_arguments (set_connect_lock true (self w))))).
  { rewrite Hw1, Hrun1. reflexivity. }
  assert (Hconn1 : result is_connected w1 = Returned true).
  { unfold result, is_connected. rewrite bind_getattr, Hself1. cbn.
    now rewrite Hcl1. }
  (* leaving *)
  assert (Hexit : __aexit__ self_quit (Some ConnectionError) w1 = close w1).
  { rewrite aexit_run. reflexivity. }
  assert (Hw2 : w2 = mkWorld (closed (self w1)) (contexts w1)
                             (trace w1 ++ close_request (self w1))).
  { subst w2. unfold after. now rewrite Hexit, close_run. }
  assert (Hcfg1 : configuration (self w1) = configuration (overrides no_arguments (self w))).
  { rewrite Hself1. rewrite <- overrides_under_lock. reflexivity. }
  (* entering again *)
  assert (Hfree2 : _connect_lock (self w2) = false) by now rewrite Hw2.
  assert (Hnc2 : result is_connected w2 = Returned false) by now rewrite Hw2.
  assert (Hcfg2 : configuration (self w2) = configuration (self w1))
    by now rewrite Hw2.
  assert (Hport1 : port (self w2) <> None).
  { assert (H : port (self w2) = port (overrides no_arguments (self w))).
    { rewrite Hcfg1 in Hcfg2. unfold configuration in Hcfg2.
      now injection Hcfg2. }
    rewrite H. destruct Hport0 as [p Hp0]. rewrite Hp0. discriminate. }
  assert (Hsaved := overrides_no_arguments (self w2) Hport1).
  assert (Hall : configuration (overrides no_arguments (self w2))
                 = configuration (overrides no_arguments (self w))).
  { now rewrite Hsaved, Hcfg2. }
  unfold configuration in Hall.
  injection Hall as Hh Hp Hti Hu Hsa Hv Hcc Hck Htc Hcb Hl.
  rewrite <- Hh in Hh0. rewrite <- Htc, <- Hcc in Hx0. rewrite <- Hu in Hu0.
  destruct (connect_returns env2 no_arguments w2 host t2 r2
              Hfree2 Hh0 Hx0 (or_introl Hu0) Ho2 Hr2 Hc2)
    as (p2 & ctx2 & w2' & Hp2 & Hstage2 & Hrun2).
  cbv zeta in Hrun2. rewrite Hl2 in Hrun2.
  assert (Henter2 : __aenter__ env2 w2 =
                    (Returned tt, snd (connect env2 no_arguments w2))).
  { rewrite (aenter_not_connected env2 w2 Hnc2).
    unfold bind. rewrite Hrun2. reflexivity. }
  assert (Hself3 : self w3 =
    set_transport (Some t2)
      (set_protocol
         (Some (mkProtocol
                  (loop (overrides no_arguments (set_connect_lock true (self w2))))))
         (overrides no_arguments (set_connect_lock true (self w2))))).
  { subst w3. unfold after. rewrite Henter2, Hrun2. reflexivity. }
  repeat split.
  - unfold result. now rewrite Henter1.
  - now rewrite Hself1.
  - now apply aenter_connected.
  - unfold result. now rewrite Hexit, close_run.
  - now rewrite Hw2.
  - exact Hfree2.
  - rewrite Hw2. cbn [trace]. apply in_or_app. right.
    unfold close_request. rewrite Hself1. cbn. rewrite Hcl1. now left.
  - unfold result. now rewrite Henter2.
  - now rewrite Hself3.
  - rewrite Hself3.
    change (configuration (set_transport ?x (set_protocol ?y ?s)))
      with (configuration s).
    rewrite overrides_under_lock, Hsaved. exact Hcfg2.
Qed.

(** Certificates are loaded before the network is touched: when the TLS
    context cannot be built, [_create_connection] raises what the
    builder raised, has made no connection attempt and has left the
    instance as it was. *)
Theorem tls_failure_prevents_attempt
    (env : Env) (w : World) (host : string) (p : Z) (e : PyExc) :
  hostname (self w) = Some host ->
  port (self w) = Some p ->
  use_tls (self w) = true ->
  result (_get_tls_context env) w = Raised e ->
  let w' := after (_create_connection env) w in
  result (_create_connection env) w = Raised e
  /\ self w' = self w
  /\ exists evs, trace w' = trace w ++ evs
                 /\ Forall (fun ev => is_attempt ev = false) evs.
Proof.
  intros Hhost Hport Htls Hraise w'. subst w'.
  assert (Hself := get_tls_context_same_self env w).
  assert (Hquiet := get_tls_context_quiet env w).
  unfold same_self, extends_quietly, after in Hself, Hquiet.
  assert (Hrun : _create_connection env w
                 = (Raised e, snd (_get_tls_context env w))).
  { rewrite create_connection_stages.
    rewrite bind_getattr, Hhost, bind_getattr, Hport, bind_getattr.
    apply bind_raises. unfold tls_stage. rewrite bind_getattr, Htls.
    apply bind_raises. unfold result in Hraise.
    destruct (_get_tls_context env w) as [c w1]. cbn in Hraise. now subst c. }
  unfold result, after. rewrite Hrun. cbn [fst snd].
  split; [reflexivity|]. split; [exact Hself | exact Hquiet].
Qed.

End SMTPConnection.

(** ** Instances *)

(** C4, as stated, fails: on the connected instance, the event loop of
    its transport closed, [close] raises; the lock stays held and both
    references stay set. *)
Lemma close_raises_when_transport_does :
  let error := Some (mkExc RuntimeError "Event loop is closed") in
  let w := mkWorld connected_instance [] [] in
  let w' := after (close_on error) w in
  result (close_on error) w = Raised (mkExc RuntimeError "Event loop is closed")
  /\ _connect_lock (self w') = true
  /\ transport (self w') <> None
  /\ protocol (self w') <> None
  /\ trace w' = [EvTransportClose 1].
Proof.
  cbv zeta. repeat split; vm_compute; discriminate.
Qed.

(** C4, witness: three calls on the instance whose transport is closing
    already, which succeed even with the event loop closed; and one call
    on the connected instance, which then raises. *)
Lemma close_idempotent_total_witness :
  let error := Some (mkExc RuntimeError "Event loop is closed") in
  let w := mkWorld hung_up_instance [] [] in
  let c := mkWorld connected_instance [] [] in
  close_request (self w) = []
  /\ result (close_times error 3) w = Returned tt
  /\ _connect_lock (self (after (close_times error 3) w)) = false
  /\ result (close_on error) c = Raised (mkExc RuntimeError "Event loop is closed")
  /\ _connect_lock (self (after (close_on error) c)) = true.
Proof.
  cbv zeta. split; [reflexivity|].
  pose proof (close_idempotent_total
                (Some (mkExc RuntimeError "Event loop is closed")) 2
                (mkWorld hung_up_instance [] [])) as Hw.
  pose proof (close_idempotent_total
                (Some (mkExc RuntimeError "Event loop is closed")) 0
                (mkWorld connected_instance [] [])) as Hc.
  destruct Hw as [Hw _]. specialize (Hw (or_intror eq_refl)). cbv zeta in Hw.
  destruct Hc as [_ Hc].
  specialize (Hc _ (mkTransport 1 false) eq_refl eq_refl eq_refl).
  cbv zeta in Hc.
  exact (conj (proj1 Hw)
           (conj (proj1 (proj2 (proj2 (proj2 Hw))))
              (conj (proj1 Hc) (proj1 (proj2 Hc))))).
Defined.



(** C3, as stated, fails: [hostname=None] passed on purpose leaves the
    stored name in place, and a port that was neither passed nor stored
    does not stay unset. *)
Lemma connect_None_keyword_not_respected :
  let call := mkConnectCall (Some None) None None None None None None
                            None None None None in
  let s := set_port None sample_instance in
  let w := mkWorld s [] [] in
  let s' := self (after (connect sample_mro sample_str sample_env
                           (bind_arguments call)) w) in
  _connect_lock s = false
  /\ hostname s' = Some "localhost"
  /\ ~ keyword_respected (kw_hostname call) (hostname s) (hostname s')
  /\ port s = None /\ port s' = Some 25
  /\ ~ keyword_respected (kw_port call) (port s) (port s').
Proof.
  cbv zeta. repeat split; try (vm_compute; discriminate).
Qed.

(** C3, witness: [timeout=None] and [use_tls=False] passed, the rest
    left out. *)
Lemma connect_keywords_override_witness :
  let call := mkConnectCall None None None (Some None) None (Some (Some false))
                            None None None None None in
  let s' := self (after (connect sample_mro sample_str sample_env
                           (bind_arguments call))
                        (mkWorld tls_instance [] [])) in
  _connect_lock tls_instance = false
  /\ timeout s' = None /\ use_tls s' = false /\ hostname s' = Some "localhost".
Proof.
  cbv zeta. split; [reflexivity|].
  pose proof (connect_keywords_override sample_mro sample_str sample_env
                (mkConnectCall None None None (Some None) None
                               (Some (Some false)) None None None None None)
                (mkWorld tls_instance [] []) eq_refl) as H.
  cbv zeta in H. destruct H as (_ & Ht & _ & _ & _ & _ & Hh & Hu & _).
  exact (conj Ht (conj Hu Hh)).
Defined.

(** C5, as stated, fails: an instance holding a TLS context connects,
    and [connect] is called again with a client certificate; the call
    does not fail with the configuration error, it waits for the lock the
    connection holds. *)
Lemma connect_conflict_waits_while_connected :
  let w := mkWorld (set_tls_context (Some 0%nat) sample_instance)
                   [mkSSLContext SERVER_AUTH true CERT_REQUIRED [] []] [] in
  let w1 := after (connect sample_mro sample_str sample_env no_arguments) w in
  let a := mkConnectArgs None None _default _default None None None
             (given (Some "client.pem")) _default _default _default in
  result (connect sample_mro sample_str sample_env no_arguments) w
  = Returned (mkResponse 220 "ready")
  /\ result is_connected w1 = Returned true
  /\ tls_context (self w1) = Some 0%nat
  /\ connect sample_mro sample_str sample_env a w1 = (Suspended, w1)
  /\ result (connect sample_mro sample_str sample_env a) w1
     <> Raised exclusive_options.
Proof.
  cbv zeta. repeat split. vm_compute. discriminate.
Qed.

(** C5, witness: an instance holding a TLS context, [connect] called
    with a client certificate. *)
Lemma tls_context_excludes_client_cert_witness :
  let w := mkWorld (set_tls_context (Some 0%nat) sample_instance)
                   [mkSSLContext SERVER_AUTH true CERT_REQUIRED [] []] [] in
  let a := mkConnectArgs None None _default _default None None None
             (given (Some "client.pem")) _default _default _default in
  _connect_lock (self w) = false
  /\ result (connect sample_mro sample_str sample_env a) w
     = Raised exclusive_options.
Proof.
  cbv zeta. split; [reflexivity|].
  exact (proj1 (proj1 (proj2 (tls_context_excludes_client_cert sample_mro
                                sample_str))
                  sample_env
                  (mkConnectArgs None None _default _default None None None
                     (given (Some "client.pem")) _default _default _default)
                  (mkWorld (set_tls_context (Some 0%nat) sample_instance)
                     [mkSSLContext SERVER_AUTH true CERT_REQUIRED [] []] [])
                  0%nat "client.pem" eq_refl eq_refl eq_refl)).
Defined.

(** C6, witness: the transport opens and the server stays silent. *)
Lemma greeting_decides_connect_witness :
  let w := mkWorld (set_connect_lock true sample_instance) [] [] in
  result (_create_connection sample_mro sample_str silent_env) w
  = Raised greeting_timeout
  /\ _connect_lock (self (after (_create_connection sample_mro sample_str
                                   silent_env) w)) = false.
Proof.
  cbv zeta.
  pose proof (proj1 (proj1 (greeting_decides_connect sample_mro sample_str)
                 silent_env
                 (mkWorld (set_connect_lock true sample_instance) [] [])
                 "localhost" 2500 (mkTransport 1 false)
                 eq_refl eq_refl (or_introl eq_refl) eq_refl)
               (mkExc asyncio_TimeoutError EmptyString) eq_refl eq_refl) as H.
  exact (conj (proj1 H) (proj1 (proj2 (proj2 (proj2 H))))).
Defined.

(** C7, witness: a 421 answer on the connected instance. *)
Lemma execute_command_unavailable_closes_witness :
  let w := mkWorld connected_instance [] [] in
  let quit_ := [list_byte_of_string "QUIT"] in
  let w' := after (execute_command sample_mro sample_env quit_ _default) w in
  live (self w) = true
  /\ result (execute_command sample_mro sample_env quit_ _default) w
     = Returned (mkResponse 421 "shutting down")
  /\ result is_connected w' = Returned false
  /\ trace w' = [EvExecuteCommand quit_ (Some DEFAULT_TIMEOUT); EvTransportClose 1].
Proof.
  cbv zeta. split; [reflexivity|].
  pose proof (execute_command_unavailable_closes sample_mro sample_env
                [list_byte_of_string "QUIT"] _default
                (mkWorld connected_instance [] [])
                (mkResponse 421 "shutting down") eq_refl eq_refl) as H.
  cbv zeta in H.
  exact (conj (proj1 H)
           (conj (proj1 (proj1 (proj2 H) eq_refl))
              (proj1 (proj2 (proj2 (proj2 H))) eq_refl
                 (mkTransport 1 false) eq_refl))).
Defined.

(** C9, witness: no context supplied, certificates not validated, a
    bundle and a client certificate to load. *)
Lemma get_tls_context_builds_witness :
  let w := mkWorld tls_instance [] [] in
  tls_context (self w) = None
  /\ exists c,
       result (_get_tls_context sample_env) w = Returned 0%nat
       /\ contexts (after (_get_tls_context sample_env) w) = [c]
       /\ check_hostname c = false
       /\ verify_mode c = CERT_NONE
       /\ verify_locations c = ["ca.pem"]
       /\ cert_chain c = [("client.pem", Some "client.key")].
Proof.
  cbv zeta. split; [reflexivity|].
  destruct (proj1 (proj2 (get_tls_context_builds sample_env
                            (mkWorld tls_instance [] [])))
              eq_refl (fun _ _ => eq_refl) (fun _ _ => eq_refl))
    as (c & Hr & Hc & _ & _ & Hch & Hv & Hl & Hcc).
  exists c. repeat split; assumption.
Defined.



(** ** Instances of the further properties *)

(** A TLS context with a client key but no certificate is accepted, and
    the instance built is disconnected. *)
Lemma fresh_instance_is_disconnected_witness :
  exists s,
    __init__ sample_env "localhost" None None (Some DEFAULT_TIMEOUT) None
             false true None (Some "client.key") (Some 0%nat) None
    = Returns s
    /\ client_key s = Some "client.key"
    /\ execute_command sample_mro sample_env [list_byte_of_string "NOOP"]
         _default (mkWorld s [] [])
       = (Raised not_connected, mkWorld s [] []).
Proof.
  eexists. split; [reflexivity|].
  destruct (proj2 (proj2 (fresh_instance_is_disconnected sample_mro sample_env
                            "localhost" None None (Some DEFAULT_TIMEOUT) None
                            false true None (Some "client.key") (Some 0%nat)
                            None))
              _ eq_refl) as (Hk & _ & _ & Hcmd).
  split; [exact Hk|]. apply Hcmd.
Defined.

(** The server hangs up during a command on the connected instance. *)
Lemma execute_command_disconnect_cleans_up_witness :
  let w := mkWorld connected_instance [] [] in
  let noop := [list_byte_of_string "NOOP"] in
  live (self w) = true
  /\ isinstance sample_mro (mkExc SMTPServerDisconnected "Connection lost")
       [SMTPServerDisconnected] = true
  /\ result (execute_command sample_mro dropping_env noop _default) w
     = Raised (mkExc SMTPServerDisconnected "Connection lost")
  /\ _connect_lock (self (after (execute_command sample_mro dropping_env noop
                                   _default) w)) = false.
Proof.
  cbv zeta. split; [reflexivity|]. split; [reflexivity|].
  pose proof (execute_command_disconnect_cleans_up sample_mro dropping_env
                [list_byte_of_string "NOOP"] _default
                (mkWorld connected_instance [] []) (mkTransport 1 false)
                (mkExc SMTPServerDisconnected "Connection lost")
                eq_refl eq_refl eq_refl eq_refl) as H.
  cbv zeta in H.
  exact (conj (proj1 H) (proj1 (proj2 (proj2 (proj2 (proj2 H)))))).
Defined.

(** A command times out on the connected instance. *)
Lemma execute_command_error_passes_through_witness :
  let w := mkWorld connected_instance [] [] in
  let noop := [list_byte_of_string "NOOP"] in
  live (self w) = true
  /\ isinstance sample_mro (mkExc asyncio_TimeoutError EmptyString)
       [SMTPServerDisconnected] = false
  /\ result (execute_command sample_mro silent_env noop (given None)) w
     = Raised (mkExc asyncio_TimeoutError EmptyString)
  /\ self (after (execute_command sample_mro silent_env noop (given None)) w)
     = connected_instance.
Proof.
  cbv zeta. split; [reflexivity|]. split; [reflexivity|].
  pose proof (execute_command_error_passes_through sample_mro silent_env
                [list_byte_of_string "NOOP"] (given None)
                (mkWorld connected_instance [] [])
                (mkExc asyncio_TimeoutError EmptyString)
                eq_refl eq_refl eq_refl) as H.
  cbv zeta in H. exact (conj (proj1 H) (proj1 (proj2 H))).
Defined.

(** The scope is left on a [ConnectionError]. *)
Lemma aexit_force_closes_witness :
  let w := mkWorld connected_instance [] [] in
  class_in (Some ConnectionError) [ConnectionError; SMTPTimeoutError] = true
  /\ result (__aexit__ sample_mro quit_answered (Some ConnectionError)) w
     = Returned tt
  /\ transport (self (after (__aexit__ sample_mro quit_answered
                               (Some ConnectionError)) w)) = None.
Proof.
  cbv zeta. split; [reflexivity|].
  pose proof (aexit_force_closes sample_mro quit_answered (Some ConnectionError)
                (mkWorld connected_instance [] []) (or_introl eq_refl)) as H.
  cbv zeta in H. exact (conj (proj1 H) (proj1 (proj2 H))).
Defined.

(** The scope is left normally and [quit] finds the server gone. *)
Lemma aexit_graceful_path_witness :
  let w := mkWorld connected_instance [] [] in
  class_in None [ConnectionError; SMTPTimeoutError] = false
  /\ result is_connected w = Returned true
  /\ result (__aexit__ sample_mro quit_on_dead_server None) w = Returned tt
  /\ _connect_lock (self (after (__aexit__ sample_mro quit_on_dead_server None)
                            w)) = false.
Proof.
  cbv zeta. split; [reflexivity|]. split; [reflexivity|].
  pose proof (proj1 (proj2 (aexit_graceful_path sample_mro quit_on_dead_server
                              None (mkWorld connected_instance [] [])
                              eq_refl eq_refl))
                (mkExc SMTPServerDisconnected "Connection lost")
                (mkWorld connected_instance [] []) eq_refl eq_refl) as H.
  cbv zeta in H.
  exact (conj (proj1 H) (proj1 (proj2 (proj2 (proj2 H))))).
Defined.


(** The bundle of the TLS instance is missing. *)
Lemma get_tls_context_raises_only_load_errors_witness :
  let w := mkWorld tls_instance [] [] in
  let e := mkExc FileNotFoundError "[Errno 2] No such file or directory" in
  result (_get_tls_context missing_bundle_env) w = Raised e
  /\ tls_context (self w) = None.
Proof.
  cbv zeta. split; [reflexivity|].
  exact (proj1 (proj2 (get_tls_context_raises_only_load_errors
                         missing_bundle_env (mkWorld tls_instance [] []))
                  (mkExc FileNotFoundError "[Errno 2] No such file or directory")
                  eq_refl)).
Defined.

(** Nothing listens on the port. *)
Lemma open_failure_is_reported_witness :
  let w := mkWorld (set_connect_lock true sample_instance) [] [] in
  isinstance sample_mro
    (mkExc ConnectionRefusedError "[Errno 111] Connection refused")
    [ConnectionRefusedError; OSError] = true
  /\ result (_create_connection sample_mro sample_str refusing_env) w
     = Raised (mkExc SMTPConnectError
                 "Error connecting to localhost on port 2500: [Errno 111] Connection refused")
  /\ _connect_lock (self (after (_create_connection sample_mro sample_str
                                   refusing_env) w)) = false.
Proof.
  cbv zeta. split; [reflexivity|].
  pose proof (proj1 (open_failure_is_reported sample_mro sample_str refusing_env
                       (mkWorld (set_connect_lock true sample_instance) [] [])
                       "localhost" 2500
                       (mkExc ConnectionRefusedError
                          "[Errno 111] Connection refused")
                       eq_refl eq_refl (or_introl eq_refl) eq_refl)
                eq_refl) as H.
  exact (conj (proj1 H) (proj1 (proj2 (proj2 (proj2 H))))).
Defined.

(** The event loop is closed. *)
Lemma unnamed_errors_pass_through_witness :
  let w := mkWorld (set_connect_lock true sample_instance) [] [] in
  isinstance sample_mro (mkExc RuntimeError "Event loop is closed")
    [ConnectionRefusedError; OSError] = false
  /\ result (_create_connection sample_mro sample_str broken_env) w
     = Raised (mkExc RuntimeError "Event loop is closed")
  /\ self (after (_create_connection sample_mro sample_str broken_env) w)
     = set_connect_lock true sample_instance.
Proof.
  cbv zeta. split; [reflexivity|].
  exact (proj1 (unnamed_errors_pass_through sample_mro sample_str broken_env
                  (mkWorld (set_connect_lock true sample_instance) [] [])
                  "localhost" 2500 (mkExc RuntimeError "Event loop is closed")
                  eq_refl eq_refl (or_introl eq_refl))
           eq_refl eq_refl eq_refl).
Defined.

(** The TLS instance connects: one attempt, with the context just built. *)
Lemma one_attempt_with_the_right_context_witness :
  let w := mkWorld tls_instance [] [] in
  use_tls (self w) = true
  /\ tls_context (self w) = None
  /\ exists c,
       contexts (after (_create_connection sample_mro sample_str sample_env) w)
       = [c].
Proof.
  cbv zeta. split; [reflexivity|]. split; [reflexivity|].
  exact (proj2 (proj2 (one_attempt_with_the_right_context sample_mro sample_str
                         sample_env (mkWorld tls_instance [] [])
                         "localhost" 2500 eq_refl eq_refl
                         (or_intror (ex_intro _ 0%nat eq_refl))))
           eq_refl eq_refl).
Defined.

(** The scenario of a server that greets with 220. *)
Lemma connect_succeeds_witness :
  let w := mkWorld sample_instance [] [] in
  _connect_lock (self w) = false
  /\ result (connect sample_mro sample_str sample_env no_arguments) w
     = Returned (mkResponse 220 "ready")
  /\ result is_connected
       (after (connect sample_mro sample_str sample_env no_arguments) w)
     = Returned true.
Proof.
  cbv zeta. split; [reflexivity|].
  pose proof (connect_succeeds sample_mro sample_str sample_env no_arguments
                (mkWorld sample_instance [] []) "localhost"
                (mkTransport 1 false) (mkResponse 220 "ready")
                eq_refl eq_refl (or_introl eq_refl) (or_introl eq_refl)
                eq_refl eq_refl eq_refl) as H.
  cbv zeta in H.
  exact (conj (proj1 H) (proj1 (proj2 (proj2 (proj2 (proj2 H)))))).
Defined.

(** A second [connect] on the instance just connected. *)
Lemma connected_instance_makes_connect_wait_witness :
  let w := mkWorld sample_instance [] [] in
  let w' := after (connect sample_mro sample_str sample_env no_arguments) w in
  connect sample_mro sample_str sample_env no_arguments w
  = (Returned (mkResponse 220 "ready"), w')
  /\ connect sample_mro sample_str second_env no_arguments w' = (Suspended, w').
Proof.
  cbv zeta. split; [reflexivity|].
  exact (proj1 (proj2 (proj2
           (connected_instance_makes_connect_wait sample_mro sample_str
              sample_env no_arguments (mkWorld sample_instance [] [])
              (after (connect sample_mro sample_str sample_env no_arguments)
                     (mkWorld sample_instance [] []))
              (mkResponse 220 "ready") eq_refl)))
           second_env no_arguments).
Defined.

(** A host given to a [connect] that is refused is the host of the next
    [connect]. *)
Lemma reconnect_uses_saved_options_witness :
  let a := mkConnectArgs (Some "mail.example.org") (Some 587) _default _default
             None None None _default _default _default _default in
  let w := mkWorld sample_instance [] [] in
  let w1 := after (connect sample_mro sample_str refusing_env a) w in
  let w3 := after (connect sample_mro sample_str sample_env no_arguments)
                  (after close w1) in
  _connect_lock (self w) = false
  /\ hostname (self w1) = Some "mail.example.org"
  /\ configuration (self w3) = configuration (self w1).
Proof.
  cbv zeta. split; [reflexivity|]. split; [reflexivity|].
  pose proof (reconnect_uses_saved_options sample_mro sample_str refusing_env
                sample_env
                (mkConnectArgs (Some "mail.example.org") (Some 587) _default
                   _default None None None _default _default _default _default)
                (mkWorld sample_instance [] []) eq_refl) as H.
  cbv zeta in H. exact (proj1 (proj2 H)).
Defined.

(** Port 25 chosen by a plain [connect] stays when TLS is switched on. *)
Lemma resolved_port_persists_witness :
  let plain := no_arguments in
  let with_tls := mkConnectArgs None None _default _default None (Some true)
                    None _default _default _default _default in
  let w := mkWorld (set_port None sample_instance) [] [] in
  let w1 := after (connect sample_mro sample_str sample_env plain) w in
  let w3 := after (connect sample_mro sample_str second_env with_tls)
                  (after close w1) in
  _connect_lock (self w) = false
  /\ arg_port with_tls = None
  /\ exists p, port (self w1) = Some p /\ port (self w3) = Some p
               /\ p = SMTP_PORT.
Proof.
  cbv zeta. split; [reflexivity|]. split; [reflexivity|].
  destruct (resolved_port_persists sample_mro sample_str sample_env second_env
              no_arguments
              (mkConnectArgs None None _default _default None (Some true)
                 None _default _default _default _default)
              (mkWorld (set_port None sample_instance) [] [])
              eq_refl eq_refl) as (p & H1 & H3 & Hp).
  exists p. split; [exact H1|]. split; [exact H3|]. exact (Hp eq_refl eq_refl).
Defined.

(** [source_address=None] passed on purpose: the name is looked up anew. *)
Lemma source_address_after_connect_witness :
  let a := mkConnectArgs None None (given None) _default None None None
             _default _default _default _default in
  let w := mkWorld (set_source_address (Some "old.example.org") sample_instance)
                   [] [] in
  _connect_lock (self w) = false
  /\ result (source_address second_env)
       (after (connect sample_mro sample_str sample_env a) w)
     = Returned "client.example.org".
Proof.
  cbv zeta. split; [reflexivity|].
  exact (source_address_after_connect sample_mro sample_str sample_env
           second_env
           (mkConnectArgs None None (given None) _default None None None
              _default _default _default _default)
           (mkWorld (set_source_address (Some "old.example.org")
                       sample_instance) [] [])
           eq_refl).
Defined.

(** Two scopes in a row on the sample instance. *)
Lemma scope_round_trip_witness :
  let w := mkWorld sample_instance [] [] in
  let w1 := after (__aenter__ sample_mro sample_str sample_env) w in
  let w2 := after (__aexit__ sample_mro quit_answered (Some ConnectionError)) w1 in
  let w3 := after (__aenter__ sample_mro sample_str second_env) w2 in
  transport (self w) = None
  /\ _connect_lock (self w) = false
  /\ transport (self w1) = Some (mkTransport 1 false)
  /\ In (EvTransportClose 1) (trace w2)
  /\ transport (self w3) = Some (mkTransport 2 false).
Proof.
  cbv zeta. split; [reflexivity|]. split; [reflexivity|].
  pose proof (scope_round_trip sample_mro sample_str sample_env second_env
                quit_answered (mkWorld sample_instance [] []) "localhost"
                (mkTransport 1 false) (mkTransport 2 false)
                (mkResponse 220 "ready") (mkResponse 220 "ready again")
                eq_refl eq_refl eq_refl (or_introl eq_refl) eq_refl
                eq_refl eq_refl eq_refl eq_refl eq_refl
                eq_refl eq_refl eq_refl eq_refl eq_refl) as H.
  cbv zeta in H.
  destruct H as (_ & H1 & _ & _ & _ & _ & Hc & _ & H3 & _).
  exact (conj H1 (conj Hc H3)).
Defined.

(** The TLS instance on the machine without the bundle. *)
Lemma tls_failure_prevents_attempt_witness :
  let w := mkWorld tls_instance [] [] in
  let e := mkExc FileNotFoundError "[Errno 2] No such file or directory" in
  use_tls (self w) = true
  /\ result (_get_tls_context missing_bundle_env) w = Raised e
  /\ result (_create_connection sample_mro sample_str missing_bundle_env) w
     = Raised e.
Proof.
  cbv zeta. split; [reflexivity|]. split; [reflexivity|].
  exact (proj1 (tls_failure_prevents_attempt sample_mro sample_str
                  missing_bundle_env (mkWorld tls_instance [] [])
                  "localhost" 2500
                  (mkExc FileNotFoundError "[Errno 2] No such file or directory")
                  eq_refl eq_refl eq_refl eq_refl)).
Defined.
